(** * smrtypntz: the query builders and row models of [database.py]

    A shallow embedding of the classes [_Condition], [_ConditionGroup],
    [_Query] (with [_Insert], [_Select], [_Update], [_Delete]) and [_Model]
    of [src/smrtypntz/database.py], together with the few pieces of the
    Python run time they rest on: [str()] and [repr()] of values,
    [str.join], [str.strip], [string.Template.substitute], exceptions.

    Python strings are modelled by [string]; a character is read as a code
    point below 256.  Dicts whose iteration order shows in a result (the
    value map of a query) are lists of items in insertion order; dicts
    only read by key (a model, a field mapping) are [gmap]s. *)

From Stdlib Require Import Ascii.
From stdpp Require Import gmap strings list fin_maps pretty.

Set Warnings "-register-all".

(** ** Python values *)

(** The part of [Any] the builders are exercised with. *)
Inductive PyVal :=
| PyNone
| PyBool (b : bool)
| PyInt (z : Z)
| PyStr (s : string)
| PyList (l : list PyVal)
| PyTuple (l : list PyVal).

(** The exceptions the modelled code can raise. *)
Inductive PyExn :=
| AttributeError
| ValueError
| TypeError
| KeyError
| IndexError.

(** A call either returns or raises. *)
Inductive PyResult (A : Type) :=
| Returns (a : A)
| Raises (e : PyExn).

Arguments Returns {A} a.
Arguments Raises {A} e.

Definition bind {A B} (m : PyResult A) (k : A -> PyResult B) : PyResult B :=
  match m with
  | Returns a => k a
  | Raises e => Raises e
  end.

Notation "'let!' x ':=' m 'in' k" := (bind m (fun x => k))
  (at level 10, x name, m at level 100, k at level 200).

(** ** Strings *)

Definition code (c : ascii) : N := N_of_ascii c.

Definition hex_digit (n : N) : ascii :=
  ascii_of_N (if (n <? 10)%N then 48 + n else 87 + n).

(** [\xhh], two lower-case hexadecimal digits. *)
Definition hex_escape (c : ascii) : string :=
  String "\" (String "x" (String (hex_digit (code c / 16))
                          (String (hex_digit (code c mod 16)) ""))).

Fixpoint contains (c : ascii) (s : string) : bool :=
  match s with
  | EmptyString => false
  | String d s' => Ascii.eqb c d || contains c s'
  end.

(** [str.isprintable] on one character below 256. *)
Definition is_printable (c : ascii) : bool :=
  let n := code c in
  ((32 <=? n) && (n <? 127) || (161 <=? n) && negb (n =? 173))%N.

Definition repr_char (quote c : ascii) : string :=
  let n := code c in
  if Ascii.eqb c quote || Ascii.eqb c "\" then String "\" (String c "")
  else if (n =? 9)%N then "\t"
  else if (n =? 10)%N then "\n"
  else if (n =? 13)%N then "\r"
  else if is_printable c then String c ""
  else hex_escape c.

Fixpoint repr_chars (quote : ascii) (s : string) : string :=
  match s with
  | EmptyString => ""
  | String c s' => repr_char quote c +:+ repr_chars quote s'
  end.

(** The double quote character. *)
Definition dquote : ascii := "034"%char.

(** [repr] of a [str]: single quotes, unless the text holds a single quote
    and no double quote. *)
Definition repr_str (s : string) : string :=
  let quote : ascii :=
    if contains "'" s && negb (contains dquote s) then dquote else "'"%char in
  String quote (repr_chars quote s +:+ String quote "").

(** [sep.join(items)] over items known to be [str]. *)
Definition str_join (sep : string) (items : list string) : string :=
  String.concat sep items.

Fixpoint py_repr (v : PyVal) : string :=
  match v with
  | PyNone => "None"
  | PyBool true => "True"
  | PyBool false => "False"
  | PyInt z => pretty z
  | PyStr s => repr_str s
  | PyList l => "[" +:+ str_join ", " (List.map py_repr l) +:+ "]"
  | PyTuple [x] => "(" +:+ py_repr x +:+ ",)"
  | PyTuple l => "(" +:+ str_join ", " (List.map py_repr l) +:+ ")"
  end.

(** [str(v)], also what [%s] formats. *)
Definition py_str (v : PyVal) : string :=
  match v with
  | PyStr s => s
  | _ => py_repr v
  end.

(** [str(x)] for an attribute annotated [str] that may still be [None]. *)
Definition str_of (o : option string) : string :=
  match o with
  | Some s => s
  | None => "None"
  end.

(** [sep.join(items)] over arbitrary items: every item has to be a [str]. *)
Fixpoint all_str (items : list PyVal) : PyResult (list string) :=
  match items with
  | [] => Returns []
  | PyStr s :: rest => let! ss := all_str rest in Returns (s :: ss)
  | _ :: _ => Raises TypeError
  end.

(** [value.join(items)]: only a [str] has the method. *)
Definition py_join (value : PyVal) (items : list PyVal) : PyResult string :=
  match value with
  | PyStr sep => let! ss := all_str items in Returns (str_join sep ss)
  | _ => Raises AttributeError
  end.

(** ["?" * n] *)
Fixpoint str_repeat (s : string) (n : nat) : string :=
  match n with
  | O => ""
  | S n' => s +:+ str_repeat s n'
  end.

(** Iterating a [str] yields its characters as one-character strings. *)
Fixpoint iter_str (s : string) : list string :=
  match s with
  | EmptyString => []
  | String c s' => String c "" :: iter_str s'
  end.

(** Whitespace in the sense of [str.strip()], below 256. *)
Definition is_space (c : ascii) : bool :=
  let n := code c in
  ((9 <=? n) && (n <=? 13) || (28 <=? n) && (n <=? 32)
   || (n =? 133) || (n =? 160))%N.

Fixpoint lstrip (s : string) : string :=
  match s with
  | EmptyString => ""
  | String c s' => if is_space c then lstrip s' else s
  end.

Fixpoint rstrip (s : string) : string :=
  match s with
  | EmptyString => ""
  | String c s' =>
      match rstrip s' with
      | EmptyString => if is_space c then "" else String c ""
      | r => String c r
      end
  end.

Definition strip (s : string) : string := rstrip (lstrip s).

(** ** [string.Template]

    [Template(tmpl).substitute(mapping)] with the default delimiter and
    identifier pattern: [$$] is a dollar sign, [$name] and [${name}] are
    replaced by [str(mapping[name])], any other [$] is a [ValueError], a
    name missing from the mapping a [KeyError].  The template is scanned
    once, left to right; substituted text is not scanned again. *)

Definition is_ident_start (c : ascii) : bool :=
  let n := code c in
  ((n =? 95) || (97 <=? n) && (n <=? 122) || (65 <=? n) && (n <=? 90))%N.

Definition is_ident_char (c : ascii) : bool :=
  let n := code c in
  (is_ident_start c || (48 <=? n) && (n <=? 57))%N.

Fixpoint getitem (mapping : list (string * string)) (name : string)
  : PyResult string :=
  match mapping with
  | [] => Raises KeyError
  | (k, v) :: rest => if String.eqb k name then Returns v else getitem rest name
  end.

Inductive scan :=
| Text
| Dollar
| Named (name : string)
| Braced (name : string).

Fixpoint substitute_from (st : scan) (tmpl : string)
  (mapping : list (string * string)) : PyResult string :=
  match tmpl with
  | EmptyString =>
      match st with
      | Text => Returns ""
      | Named name => getitem mapping name
      | Dollar | Braced _ => Raises ValueError
      end
  | String c rest =>
      match st with
      | Text =>
          if Ascii.eqb c "$" then substitute_from Dollar rest mapping
          else let! out := substitute_from Text rest mapping in
               Returns (String c out)
      | Dollar =>
          if Ascii.eqb c "$" then
            let! out := substitute_from Text rest mapping in
            Returns (String "$" out)
          else if Ascii.eqb c "{" then substitute_from (Braced "") rest mapping
          else if is_ident_start c then
            substitute_from (Named (String c "")) rest mapping
          else Raises ValueError
      | Named name =>
          if is_ident_char c then
            substitute_from (Named (name +:+ String c "")) rest mapping
          else
            let! v := getitem mapping name in
            let! out := (if Ascii.eqb c "$"
                         then substitute_from Dollar rest mapping
                         else let! out := substitute_from Text rest mapping in
                              Returns (String c out)) in
            Returns (v +:+ out)
      | Braced name =>
          if Ascii.eqb c "}" then
            match name with
            | EmptyString => Raises ValueError
            | _ => let! v := getitem mapping name in
                   let! out := substitute_from Text rest mapping in
                   Returns (v +:+ out)
            end
          else if match name with
                  | EmptyString => is_ident_start c
                  | _ => is_ident_char c
                  end
          then substitute_from (Braced (name +:+ String c "")) rest mapping
          else Raises ValueError
      end
  end.

Definition substitute (tmpl : string) (mapping : list (string * string))
  : PyResult string :=
  substitute_from Text tmpl mapping.

(** ** [_Condition] *)

Module _Condition.

(** The members of the enum with their [value]s: a member written with a
    trailing comma has a one-element tuple for value. *)
Inductive _Type :=
| EQUALS
| NOT_EQUALS
| GREATER_THAN
| GREATER_THAN_EQUALS
| LESS_THAN
| LESS_THAN_EQUALS.

Definition value (t : _Type) : PyVal :=
  match t with
  | EQUALS => PyTuple [PyStr "="]
  | NOT_EQUALS => PyTuple [PyStr "!="]
  | GREATER_THAN => PyTuple [PyStr ">"]
  | GREATER_THAN_EQUALS => PyTuple [PyStr ">="]
  | LESS_THAN => PyTuple [PyStr "<"]
  | LESS_THAN_EQUALS => PyStr "<="
  end.

(** An instance: its three attributes.  [None] for the column is [None];
    a value of [None] is [PyNone]. *)
Record t := {
  _column_name : option string;
  _value : PyVal;
  _type : _Type
}.

(** [_Condition(column_name, value)]: [_type] stays the class attribute. *)
Definition __init__ (column_name : option string) (value : PyVal) : t :=
  {| _column_name := column_name; _value := value; _type := EQUALS |}.

(** ['%s %s %s' % (column, type.value, value)] when column and value are
    both not [None], else the empty string. *)
Definition __str__ (self : t) : string :=
  match _column_name self, _value self with
  | None, _ => ""
  | Some _, PyNone => ""
  | Some column_name, v =>
      column_name +:+ " " +:+ py_str (value (_type self)) +:+ " " +:+ py_str v
  end.

End _Condition.

(** ** [_ConditionGroup] *)

Module _ConditionGroup.

Inductive _Type :=
| AND
| OR.

Definition value (t : _Type) : PyVal :=
  match t with
  | AND => PyTuple [PyStr " AND "]
  | OR => PyStr " OR "
  end.

(** [__str__] reads two attributes of the group, [_conditions] and
    [_type], and never the items of the list. *)
Definition __str__ (_conditions : list PyVal) (_type : _Type)
  : PyResult string :=
  let! joined := py_join (value _type) _conditions in
  Returns ("(" +:+ joined +:+ ")").

End _ConditionGroup.

(** What a [_where_map] can hold: a condition or a group.  A group is a
    list (its items are what the constructor was given) with the
    attributes [_conditions] and [_type]. *)
Inductive where_map :=
| Condition (c : _Condition.t)
| ConditionGroup (items : list where_map) (_conditions : list PyVal)
    (_type : _ConditionGroup._Type).

(** [_ConditionGroup(items)]: the class defines no constructor, so the
    list is filled and both attributes stay the class attributes. *)
Definition new_ConditionGroup (items : list where_map) : where_map :=
  ConditionGroup items [] _ConditionGroup.AND.

(** [str(self._where_map)] *)
Definition where_str (w : where_map) : PyResult string :=
  match w with
  | Condition c => Returns (_Condition.__str__ c)
  | ConditionGroup _ _conditions _type =>
      _ConditionGroup.__str__ _conditions _type
  end.

(** ** [_Query] and its four subclasses *)

(** Which subclass an instance belongs to: it selects [_get_query_str]. *)
Inductive query_class :=
| _Insert
| _Select
| _Update
| _Delete.

(** A builder.  [_value_map] is a dict: its items in insertion order. *)
Record _Query := {
  cls : query_class;
  _table_name : option string;
  _value_map : option (list (string * PyVal));
  _where_map : option where_map
}.

(** What [build] returns: the dict with the keys [query] and [args], or
    the dict with the key [error]. *)
Inductive build_dict :=
| Built (query : string) (args : option (list PyVal))
| Error (error : string).

(** [", ".join(keys)], or [*] without a value map. *)
Definition _get_columns_str (self : _Query) : string :=
  match _value_map self with
  | Some value_map => str_join ", " (List.map fst value_map)
  | None => "*"
  end.

(** [", ".join("?" * len(value_map))]: the characters of the repeated
    string are what is joined. *)
Definition _get_values_str (self : _Query) : string :=
  match _value_map self with
  | Some value_map =>
      str_join ", " (iter_str (str_repeat "?" (length value_map)))
  | None => ""
  end.

(** ['WHERE %s' % str(self._where_map)], or the empty string. *)
Definition _get_where_conditions (self : _Query) : PyResult string :=
  match _where_map self with
  | Some w => let! s := where_str w in Returns ("WHERE " +:+ s)
  | None => Returns ""
  end.

(** [tuple(self._value_map.values())], or [None]. *)
Definition _get_args (self : _Query) : option (list PyVal) :=
  match _value_map self with
  | Some value_map => Some (List.map snd value_map)
  | None => None
  end.

(** [for key, val in self._value_map]: the dict yields its keys, and each
    key, a [str], is unpacked into two names: it must have exactly two
    characters. *)
Definition unpack2 (key : string) : PyResult (string * string) :=
  match key with
  | String a (String b EmptyString) => Returns (String a "", String b "")
  | _ => Raises ValueError
  end.

Fixpoint changes_of (keys : list string) : PyResult (list string) :=
  match keys with
  | [] => Returns []
  | k :: rest =>
      let! kv := unpack2 k in
      let! changes := changes_of rest in
      Returns ((fst kv +:+ " = " +:+ snd kv) :: changes)
  end.

(** [_Update._get_changes_string] *)
Definition _get_changes_string (self : _Query) : PyResult string :=
  match _value_map self with
  | None => Returns ""
  | Some value_map =>
      let! changes := changes_of (List.map fst value_map) in
      Returns (str_join ", " changes)
  end.

(** The [where] entry of [_Select] and [_Update]. *)
Definition where_entry (self : _Query) : PyResult string :=
  match _where_map self with
  | Some _ => _get_where_conditions self
  | None => Returns ""
  end.

(** [_get_query_str] of each subclass.  The entries of the dict given to
    [substitute] are evaluated in the order written, before it is
    called. *)
Definition _get_query_str (self : _Query) : PyResult string :=
  match cls self with
  | _Insert =>
      substitute "INSERT INTO $table ($columns) VALUES ($values)"
        [("table", str_of (_table_name self));
         ("columns", _get_columns_str self);
         ("values", _get_values_str self)]
  | _Select =>
      let! where_ := where_entry self in
      let! s := substitute "SELECT ${columns} FROM ${table} ${where}"
                  [("columns", _get_columns_str self);
                   ("table", str_of (_table_name self));
                   ("where", where_)] in
      Returns (strip s)
  | _Update =>
      let! changes := _get_changes_string self in
      let! where_ := where_entry self in
      let! s := substitute "UPDATE ${table} SET ${changes} ${where}"
                  [("table", str_of (_table_name self));
                   ("changes", changes);
                   ("where", where_)] in
      Returns (strip s)
  | _Delete =>
      match _where_map self with
      | Some _ =>
          let! where_ := _get_where_conditions self in
          substitute "DELETE FROM ${table} ${where}"
            [("table", str_of (_table_name self));
             ("where", where_)]
      | None => Returns ""
      end
  end.

(** [_Query.build]: the table name is tested first. *)
Definition build (self : _Query) : PyResult build_dict :=
  match _table_name self with
  | Some _ =>
      let! query := _get_query_str self in
      Returns (Built query (_get_args self))
  | None => Returns (Error "No table name provided.")
  end.

(** The constructor calls of the four subclasses. *)
Definition new (c : query_class) (table_name : option string)
  (value_map : option (list (string * PyVal)))
  (where_ : option where_map) : _Query :=
  {| cls := c; _table_name := table_name;
     _value_map := value_map; _where_map := where_ |}.

(** ** [_Model] *)

(** *** [sqlite3.Row]

    The columns of one result row, in order.  [row[name]] is the value
    of the first column whose name equals [name]; two names of ASCII
    characters are also equal when they differ by case only.  With no
    such column it is an [IndexError]. *)

Fixpoint is_ascii (s : string) : bool :=
  match s with
  | EmptyString => true
  | String c s' => (code c <? 128)%N && is_ascii s'
  end.

Definition to_lower (c : ascii) : ascii :=
  let n := code c in
  if ((65 <=? n) && (n <=? 90))%N then ascii_of_N (n + 32) else c.

Fixpoint lower (s : string) : string :=
  match s with
  | EmptyString => ""
  | String c s' => String (to_lower c) (lower s')
  end.

Definition equal_ignore_case (left right : string) : bool :=
  String.eqb left right
  || is_ascii left && is_ascii right && String.eqb (lower left) (lower right).

Definition Row_keys (row : list (string * PyVal)) : list string :=
  fst <$> row.

Fixpoint Row_getitem (row : list (string * PyVal)) (name : string)
  : PyResult PyVal :=
  match row with
  | [] => Raises IndexError
  | (column, v) :: rest =>
      if equal_ignore_case column name then Returns v
      else Row_getitem rest name
  end.

(** *** The methods

    A model is a dict; a method takes [self] as it is before the call
    and gives [self] as it is after it, with how the call ended. *)

(** What [source[name]] does is up to the source: any subscriptable
    object, given by its [__getitem__]. *)
Definition subscriptable := string -> PyResult PyVal.

(** A dict as a source: a missing key is a [KeyError]. *)
Definition dict_getitem (d : gmap string PyVal) : subscriptable :=
  fun name =>
    match d !! name with
    | Some v => Returns v
    | None => Raises KeyError
    end.

(** [source[source_field]] is read without side effect each time. *)
Definition _set_if_tag_exists (self : gmap string PyVal) (field_name : string)
  (source : subscriptable) (source_field : option string)
  : gmap string PyVal * PyResult unit :=
  let source_field :=
    match source_field with
    | None => field_name
    | Some f => f
    end in
  match source source_field with
  | Raises e => (self, Raises e)
  | Returns PyNone => (self, Returns ())
  | Returns (PyList []) => (self, Raises IndexError)
  | Returns (PyList (first :: _)) => (<[field_name := first]> self, Returns ())
  | Returns v => (<[field_name := v]> self, Returns ())
  end.

(** The key a column is stored under. *)
Definition key_of (sqlite_field_mapping : option (gmap string string))
  (sql_key : string) : string :=
  match sqlite_field_mapping with
  | Some mapping =>
      match mapping !! sql_key with
      | Some key => key
      | None => sql_key
      end
  | None => sql_key
  end.

(** The loop of [from_sqlite] over the keys still to visit. *)
Fixpoint from_sqlite_loop (self : gmap string PyVal) (keys : list string)
  (row : list (string * PyVal))
  (sqlite_field_mapping : option (gmap string string))
  : gmap string PyVal * PyResult unit :=
  match keys with
  | [] => (self, Returns ())
  | sql_key :: rest =>
      match Row_getitem row sql_key with
      | Returns v =>
          from_sqlite_loop (<[key_of sqlite_field_mapping sql_key := v]> self)
            rest row sqlite_field_mapping
      | Raises e => (self, Raises e)
      end
  end.

Definition from_sqlite (self : gmap string PyVal)
  (row : list (string * PyVal))
  (sqlite_field_mapping : option (gmap string string))
  : gmap string PyVal * PyResult unit :=
  from_sqlite_loop self (Row_keys row) row sqlite_field_mapping.

(** [_Model(sqlite_row=..., sqlite_field_mapping=...)]: the dict starts
    empty, and is filled from the row when there is one. *)
Definition new_Model (sqlite_row : option (list (string * PyVal)))
  (sqlite_field_mapping : option (gmap string string))
  : gmap string PyVal * PyResult unit :=
  match sqlite_row with
  | Some row => from_sqlite ∅ row sqlite_field_mapping
  | None => (∅, Returns ())
  end.

(** Column names no two of which [row[name]] confuses. *)
Fixpoint distinct_columns (names : list string) : bool :=
  match names with
  | [] => true
  | name :: rest =>
      forallb (fun other => negb (equal_ignore_case name other)) rest
      && distinct_columns rest
  end.

(** A call of [build] fails when it raises or returns the error dict. *)
Definition fails (outcome : PyResult build_dict) : Prop :=
  match outcome with
  | Returns (Built _ _) => False
  | Returns (Error _) | Raises _ => True
  end.

(** Whether the where-map of a builder can be rendered: there is none,
    or [str()] of it returns. *)
Definition renders (where_ : option where_map) : Prop :=
  match where_ with
  | Some w => exists rendered, where_str w = Returns rendered
  | None => True
  end.

(** ** [Track], [Artist], [Album] *)

(** Running two statements in a row: the second is not reached when the
    first has raised. *)
Definition and_then (first : gmap string PyVal * PyResult unit)
  (next : gmap string PyVal -> gmap string PyVal * PyResult unit)
  : gmap string PyVal * PyResult unit :=
  match first with
  | (self, Returns _) => next self
  | (self, Raises e) => (self, Raises e)
  end.

(** What [populate] is given: an object with the attributes [path] and
    [length] that can be subscripted by tag name. *)
Module taglib.

Record File := {
  path : PyVal;
  length : PyVal;
  __getitem__ : subscriptable
}.

End taglib.

Module Track.

Definition populate (self : gmap string PyVal) (taglib_song : taglib.File)
  : gmap string PyVal * PyResult unit :=
  let self := <["filepath" := taglib.path taglib_song]> self in
  let self := <["duration" := taglib.length taglib_song]> self in
  and_then
    (_set_if_tag_exists self "name"
       (taglib.__getitem__ taglib_song) (Some "TITLE"))
    (fun self =>
       _set_if_tag_exists self "album_track_number"
         (taglib.__getitem__ taglib_song) (Some "TRACKNUMBER")).

Definition set_artist (self artist : gmap string PyVal)
  : gmap string PyVal :=
  match artist !! "id" with
  | Some id => <["artist_id" := id]> self
  | None => self
  end.

Definition set_album_artist (self artist : gmap string PyVal)
  : gmap string PyVal :=
  match artist !! "id" with
  | Some id => <["album_artist_id" := id]> self
  | None => self
  end.

Definition set_album (self album : gmap string PyVal)
  : gmap string PyVal :=
  match album !! "id" with
  | Some id => <["album_id" := id]> self
  | None => self
  end.

End Track.

Module Artist.

Definition populate (self : gmap string PyVal) (taglib_song : taglib.File)
  : gmap string PyVal * PyResult unit :=
  and_then
    (_set_if_tag_exists self "name"
       (taglib.__getitem__ taglib_song) (Some "ARTIST"))
    (fun self =>
       _set_if_tag_exists self "album_artist"
         (taglib.__getitem__ taglib_song) (Some "ALBUMARTIST")).

Definition needs_split (self : gmap string PyVal) : bool :=
  bool_decide (is_Some (self !! "album_artist")).

(** [split]: [self] afterwards, and the new artist returned.  [Artist()]
    is an empty dict; reading [self['album_artist']] raises when the key
    is missing, before anything is changed. *)
Definition split (self : gmap string PyVal)
  : gmap string PyVal * PyResult (gmap string PyVal) :=
  match self !! "album_artist" with
  | Some v => (delete "album_artist" self, Returns (<["name" := v]> ∅))
  | None => (self, Raises KeyError)
  end.

End Artist.

Module Album.

Definition populate (self : gmap string PyVal) (taglib_song : taglib.File)
  : gmap string PyVal * PyResult unit :=
  and_then
    (_set_if_tag_exists self "name"
       (taglib.__getitem__ taglib_song) (Some "ALBUM"))
    (fun self =>
       _set_if_tag_exists self "album_artist"
         (taglib.__getitem__ taglib_song) (Some "ALBUMARTIST")).

Definition set_artist (self artist : gmap string PyVal)
  : gmap string PyVal :=
  match artist !! "id" with
  | Some id => <["artist_id" := id]> self
  | None => self
  end.

End Album.

(** [_Model.__init__] as a subclass inherits it: [populate] is the
    method of the subclass; the dict starts empty. *)
Definition Model_init
  (populate : gmap string PyVal -> taglib.File
              -> gmap string PyVal * PyResult unit)
  (taglib_song : option taglib.File)
  (sqlite_row : option (list (string * PyVal)))
  (sqlite_field_mapping : option (gmap string string))
  : gmap string PyVal * PyResult unit :=
  and_then
    match taglib_song with
    | Some song => populate ∅ song
    | None => (∅, Returns ())
    end
    (fun self =>
       match sqlite_row with
       | Some row => from_sqlite self row sqlite_field_mapping
       | None => (self, Returns ())
       end).

(** ** [_DbHandler] *)

(** What one [cursor.execute(query_str, args)] followed by a fetch comes
    to: the rows of the result, an [sqlite3.Error], or another
    exception. *)
Inductive cursor_outcome :=
| Fetched (rows : list (list (string * PyVal)))
| sqlite3_Error
| Other (e : PyExn).

Section DbHandler.

(** The connection, as far as one call shows it. *)
Variable execute : string -> option (list PyVal) -> cursor_outcome.

Definition _exec_raw_query_no_result (query_str : string)
  (args : option (list PyVal)) : PyResult bool :=
  match execute query_str args with
  | Fetched _ => Returns true
  | sqlite3_Error => Returns false
  | Other e => Raises e
  end.

(** [fetchone()]: the first row, or [None]. *)
Definition _exec_raw_query_single_result (query_str : string)
  (args : option (list PyVal)) : PyResult (option (list (string * PyVal))) :=
  match execute query_str args with
  | Fetched rows => Returns (head rows)
  | sqlite3_Error => Returns None
  | Other e => Raises e
  end.

Definition _exec_raw_query_all_results (query_str : string)
  (args : option (list PyVal))
  : PyResult (option (list (list (string * PyVal)))) :=
  match execute query_str args with
  | Fetched rows => Returns (Some rows)
  | sqlite3_Error => Returns None
  | Other e => Raises e
  end.

Definition _exec_query_no_result (query_obj : _Query) : PyResult bool :=
  let! query := build query_obj in
  match query with
  | Error _ => Returns false
  | Built query args => _exec_raw_query_no_result query args
  end.

Definition _exec_query_single_result (query_obj : _Query)
  : PyResult (option (list (string * PyVal))) :=
  let! query := build query_obj in
  match query with
  | Error _ => Returns None
  | Built query args => _exec_raw_query_single_result query args
  end.

(** The last line looks up [self._exec_query_raw_all_results]: no class
    defines an attribute of that name (the method is
    [_exec_raw_query_all_results]), so the lookup raises before the
    arguments are read. *)
Definition _exec_query_all_results (query_obj : _Query)
  : PyResult (option (list (list (string * PyVal)))) :=
  let! query := build query_obj in
  match query with
  | Error _ => Returns None
  | Built _ _ => Raises AttributeError
  end.

(** [x == 1] *)
Definition eq_1 (x : PyVal) : bool :=
  match x with
  | PyInt 1 => true
  | PyBool true => true
  | _ => false
  end.

(** [row[0]]: the value of the first column. *)
Definition Row_first (row : list (string * PyVal)) : PyResult PyVal :=
  match row with
  | (_, v) :: _ => Returns v
  | [] => Raises IndexError
  end.

(** [None[0]] is a [TypeError]. *)
Definition _table_exists (table_name : string) : PyResult bool :=
  let! found :=
    _exec_raw_query_single_result
      ("SELECT * FROM sqlite_master WHERE type='table' AND name='"
       +:+ table_name +:+ "'") None in
  match found with
  | None => Raises TypeError
  | Some row => let! v := Row_first row in Returns (eq_1 v)
  end.

End DbHandler.

(** * Properties *)

(** ** The run time on small inputs *)

Example str_of_tuple : py_str (PyTuple [PyStr "="]) = "('=',)".
Proof. reflexivity. Qed.

Example str_of_list :
  py_str (PyList [PyStr "a"; PyInt (-3); PyNone; PyTuple []])
  = "['a', -3, None, ()]".
Proof. reflexivity. Qed.

Example strip_both_ends : strip "  SELECT * FROM t  " = "SELECT * FROM t".
Proof. reflexivity. Qed.

Example placeholders_3 :
  str_join ", " (iter_str (str_repeat "?" 3)) = "?, ?, ?".
Proof. reflexivity. Qed.

Example substitute_named_and_braced :
  substitute "$a-${b}$$" [("a", "1"); ("b", "2")] = Returns "1-2$".
Proof. reflexivity. Qed.

Example substitute_missing : substitute "$a $b" [("a", "1")] = Raises KeyError.
Proof. reflexivity. Qed.

Example substitute_invalid : substitute "${a" [("a", "1")] = Raises ValueError.
Proof. reflexivity. Qed.

Example join_not_str :
  py_join (PyStr ", ") [PyStr "a"; PyInt 1] = Raises TypeError.
Proof. reflexivity. Qed.

(** ** Rendering of conditions *)

(** The values of the operator enum: only the last member, written
    without a trailing comma, has its symbol for value. *)
Lemma Condition_Type_value_str (t : _Condition._Type) :
  (exists symbol, _Condition.value t = PyStr symbol) <->
  t = _Condition.LESS_THAN_EQUALS.
Proof.
  split.
  - intros [symbol H]. destruct t; simpl in H; congruence.
  - intros ->. by exists "<=".
Qed.

(** A condition without a column, or with the value [None], renders as
    the empty string. *)
Lemma Condition_str_unset (c : _Condition.t) :
  _Condition._column_name c = None \/ _Condition._value c = PyNone ->
  _Condition.__str__ c = "".
Proof.
  unfold _Condition.__str__. intros [-> | ->]; [done |].
  by destruct (_Condition._column_name c).
Qed.

(** A constructed condition with both parts set renders the column, the
    [str] of the one-element tuple that is the value of [EQUALS], and the
    [str] of the value. *)
Lemma Condition_str_set (column_name : string) (v : PyVal) :
  v <> PyNone ->
  _Condition.__str__ (_Condition.__init__ (Some column_name) v)
  = column_name +:+ " ('=',) " +:+ py_str v.
Proof.
  intros Hv. unfold _Condition.__str__, _Condition.__init__. simpl.
  by destruct v.
Qed.

(** C1, at [_Condition("id", 5)]: the rendering is [id ('=',) 5], with
    the tuple that the enum member has for value, and not [id = 5]. *)
Theorem Condition_str_id_5 :
  _Condition.__str__ (_Condition.__init__ (Some "id") (PyInt 5))
  = "id ('=',) 5"
  /\ _Condition.__str__ (_Condition.__init__ (Some "id") (PyInt 5))
     <> "id = 5".
Proof. split; [reflexivity | discriminate]. Qed.

(** C2: rendering a constructed group raises [AttributeError] whatever
    its children are: the value of [AND] is a tuple, which has no
    [join]. *)
Theorem ConditionGroup_str_raises (items : list where_map) :
  where_str (new_ConditionGroup items) = Raises AttributeError.
Proof. reflexivity. Qed.

(** With the type [OR] the attribute [_conditions] is joined as it is:
    the children, the items of the list, play no part. *)
Lemma ConditionGroup_str_OR (items : list where_map) (conds : list PyVal) :
  where_str (ConditionGroup items conds _ConditionGroup.OR)
  = let! ss := all_str conds in Returns ("(" +:+ str_join " OR " ss +:+ ")").
Proof.
  unfold where_str, _ConditionGroup.__str__, py_join. simpl.
  by destruct (all_str conds).
Qed.

(** ** The statement templates *)

Lemma append_empty_r (s : string) : s +:+ "" = s.
Proof.
  induction s as [| c s IH]; [done |].
  change (String c (s +:+ "") = String c s). by rewrite IH.
Qed.

Lemma substitute_insert (table columns values : string) :
  substitute "INSERT INTO $table ($columns) VALUES ($values)"
    [("table", table); ("columns", columns); ("values", values)]
  = Returns ("INSERT INTO " +:+ table +:+ " (" +:+ columns
             +:+ ") VALUES (" +:+ values +:+ ")").
Proof. vm_compute. reflexivity. Qed.

Lemma substitute_select (columns table where_ : string) :
  substitute "SELECT ${columns} FROM ${table} ${where}"
    [("columns", columns); ("table", table); ("where", where_)]
  = Returns ("SELECT " +:+ columns +:+ " FROM " +:+ table +:+ " " +:+ where_).
Proof.
  rewrite <- (append_empty_r where_) at 2. vm_compute. reflexivity.
Qed.

Lemma substitute_update (table changes where_ : string) :
  substitute "UPDATE ${table} SET ${changes} ${where}"
    [("table", table); ("changes", changes); ("where", where_)]
  = Returns ("UPDATE " +:+ table +:+ " SET " +:+ changes +:+ " " +:+ where_).
Proof.
  rewrite <- (append_empty_r where_) at 2. vm_compute. reflexivity.
Qed.

Lemma substitute_delete (table where_ : string) :
  substitute "DELETE FROM ${table} ${where}"
    [("table", table); ("where", where_)]
  = Returns ("DELETE FROM " +:+ table +:+ " " +:+ where_).
Proof.
  rewrite <- (append_empty_r where_) at 2. vm_compute. reflexivity.
Qed.

(** ** The builders *)

Lemma bind_returns {A B} (a : A) (k : A -> PyResult B) :
  bind (Returns a) k = k a.
Proof. reflexivity. Qed.

(** The [args] of a builder: the values of its value map, in order. *)
Lemma get_args_values (self : _Query) :
  _get_args self = option_map (List.map snd) (_value_map self).
Proof. unfold _get_args. by destruct (_value_map self). Qed.

(** Without a table name nothing is rendered: the outcome is the error
    dict also where rendering the statement would raise. *)
Lemma build_without_table (self : _Query) :
  _table_name self = None ->
  build self = Returns (Error "No table name provided.").
Proof. unfold build. by intros ->. Qed.

(** With a table name, [build] ends as [_get_query_str] does. *)
Lemma build_with_table (self : _Query) (table : string) :
  _table_name self = Some table ->
  build self
  = let! query := _get_query_str self in
    Returns (Built query (option_map (List.map snd) (_value_map self))).
Proof. unfold build. intros ->. by rewrite get_args_values. Qed.

(** [_Insert] with a table name always builds. *)
Lemma Insert_build (table : string) (value_map : option (list (string * PyVal)))
  (where_ : option where_map) :
  let self := new _Insert (Some table) value_map where_ in
  build self
  = Returns (Built ("INSERT INTO " +:+ table +:+ " (" +:+ _get_columns_str self
                    +:+ ") VALUES (" +:+ _get_values_str self +:+ ")")
               (option_map (List.map snd) value_map)).
Proof.
  intros self. rewrite (build_with_table self table eq_refl).
  unfold _get_query_str, _get_columns_str, _get_values_str. subst self.
  cbn [cls _table_name new str_of].
  by rewrite substitute_insert.
Qed.

(** [_Select] whose where-map is absent or renders. *)
Lemma Select_build (table : string) (value_map : option (list (string * PyVal)))
  (where_ : option where_map) (rendered : string) :
  match where_ with
  | Some w => where_str w = Returns rendered
  | None => True
  end ->
  let self := new _Select (Some table) value_map where_ in
  build self
  = Returns (Built (strip ("SELECT " +:+ _get_columns_str self +:+ " FROM "
                           +:+ table +:+ " "
                           +:+ match where_ with
                               | Some _ => "WHERE " +:+ rendered
                               | None => ""
                               end))
               (option_map (List.map snd) value_map)).
Proof.
  intros Hw self. rewrite (build_with_table self table eq_refl).
  unfold _get_query_str, where_entry, _get_where_conditions, _get_columns_str.
  subst self.
  cbn [cls _table_name _where_map new str_of].
  destruct where_ as [w |]; [rewrite Hw |]; rewrite ?bind_returns;
    by rewrite substitute_select.
Qed.

(** [_Delete]: no where-map, no statement text; a where-map that renders
    is put after the table. *)
Lemma Delete_where_renders (table : string)
  (value_map : option (list (string * PyVal))) (w : where_map)
  (rendered : string) :
  where_str w = Returns rendered ->
  build (new _Delete (Some table) value_map (Some w))
  = Returns (Built ("DELETE FROM " +:+ table +:+ " WHERE " +:+ rendered)
               (option_map (List.map snd) value_map)).
Proof.
  intros Hw.
  rewrite (build_with_table (new _Delete (Some table) value_map (Some w))
             table eq_refl).
  unfold _get_query_str, _get_where_conditions.
  cbn [cls _table_name _where_map new str_of].
  rewrite Hw, !bind_returns. by rewrite substitute_delete.
Qed.

Lemma Delete_no_where_empty (table : string)
  (value_map : option (list (string * PyVal))) :
  build (new _Delete (Some table) value_map None)
  = Returns (Built "" (option_map (List.map snd) value_map)).
Proof. reflexivity. Qed.

(** A key that is not two characters long stops [_Update]. *)
Lemma changes_of_raises (keys : list string) :
  Exists (fun key => String.length key <> 2) keys ->
  changes_of keys = Raises ValueError.
Proof.
  induction keys as [| key rest IH]; intros H; [by inversion H |].
  simpl. destruct key as [| a [| b [| c key]]]; try done.
  simpl. rewrite IH; [done |].
  inversion H as [? ? Hk | ]; [by simpl in Hk | done].
Qed.

Lemma Update_build_raises (table : string) (value_map : list (string * PyVal))
  (where_ : option where_map) :
  Exists (fun key => String.length key <> 2) (List.map fst value_map) ->
  build (new _Update (Some table) (Some value_map) where_) = Raises ValueError.
Proof.
  intros H.
  rewrite (build_with_table (new _Update (Some table) (Some value_map) where_)
             table eq_refl).
  unfold _get_query_str, _get_changes_string.
  cbn [cls _value_map new]. by rewrite (changes_of_raises _ H).
Qed.

(** ** [_Delete] *)

(** [_Delete("t")] without a where-map does not fail: it returns the
    empty statement text and no [args]. *)
Lemma Delete_no_where_does_not_fail :
  build (new _Delete (Some "t") None None) = Returns (Built "" None)
  /\ ~ fails (build (new _Delete (Some "t") None None)).
Proof. split; [reflexivity | intros []]. Qed.

(** C3, as the code has it: a [_Delete] with a table name and no
    where-map returns the empty string for statement, with the values of
    the value map (if any) for [args], and is not an error; with a
    where-map that renders, the statement is [DELETE FROM <table> WHERE]
    followed by the rendering, and [args] still holds the values of the
    value map only. *)
Theorem Delete_build_statement (table : string)
  (value_map : option (list (string * PyVal))) :
  build (new _Delete (Some table) value_map None)
  = Returns (Built "" (option_map (List.map snd) value_map))
  /\ forall (w : where_map) (rendered : string),
       where_str w = Returns rendered ->
       build (new _Delete (Some table) value_map (Some w))
       = Returns (Built ("DELETE FROM " +:+ table +:+ " WHERE " +:+ rendered)
                    (option_map (List.map snd) value_map)).
Proof.
  split; [apply Delete_no_where_empty |].
  intros w rendered Hw. by apply Delete_where_renders.
Qed.

Lemma Delete_build_statement_id_5 :
  where_str (Condition (_Condition.__init__ (Some "id") (PyInt 5)))
  = Returns "id ('=',) 5"
  /\ build (new _Delete (Some "t") None
              (Some (Condition (_Condition.__init__ (Some "id") (PyInt 5)))))
     = Returns (Built "DELETE FROM t WHERE id ('=',) 5" None).
Proof.
  split; [reflexivity |].
  exact (proj2 (Delete_build_statement "t" None)
           (Condition (_Condition.__init__ (Some "id") (PyInt 5)))
           "id ('=',) 5" eq_refl).
Defined.

(** ** The table name *)

(** [_Insert("t")] without a value map returns [None] for [args]: no
    sequence of parameters. *)
Lemma Insert_no_values_args_None :
  ~ exists (query : string) (parameters : list PyVal),
      build (new _Insert (Some "t") None None)
      = Returns (Built query (Some parameters)).
Proof. intros (query & parameters & H). vm_compute in H. discriminate H. Qed.

(** C4, as the code has it: without a table name every builder returns
    the error dict, and renders nothing; with one, [build] never returns
    the error dict: what it returns is a statement with, for [args], the
    values of the value map, or [None] without a value map.  An
    [_Insert] always returns so, a [_Select] and a [_Delete] whenever the
    where-map is absent or is a condition. *)
Theorem build_table_name (c : query_class)
  (value_map : option (list (string * PyVal))) (where_ : option where_map) :
  build (new c None value_map where_)
  = Returns (Error "No table name provided.")
  /\ (forall (table : string) (outcome : build_dict),
        build (new c (Some table) value_map where_) = Returns outcome ->
        exists query,
          outcome = Built query (option_map (List.map snd) value_map))
  /\ (forall table : string,
        c = _Insert
        \/ (c = _Select \/ c = _Delete)
           /\ (forall items conds ty,
                 where_ <> Some (ConditionGroup items conds ty)) ->
        exists query,
          build (new c (Some table) value_map where_)
          = Returns (Built query (option_map (List.map snd) value_map))).
Proof.
  split; [reflexivity | split].
  - intros table outcome.
    rewrite (build_with_table (new c (Some table) value_map where_)
               table eq_refl).
    destruct (_get_query_str _) as [query | e]; [| discriminate].
    rewrite bind_returns. intros [= <-]. by exists query.
  - intros table [-> | [Hc Hw]].
    + eexists. apply Insert_build.
    + destruct where_ as [[cond | items conds ty] |].
      * destruct Hc as [-> | ->].
        -- eexists.
           exact (Select_build table value_map (Some (Condition cond))
                    (_Condition.__str__ cond) eq_refl).
        -- eexists. by apply Delete_where_renders.
      * by destruct (Hw items conds ty).
      * destruct Hc as [-> | ->].
        -- eexists. exact (Select_build table value_map None "" I).
        -- eexists. apply Delete_no_where_empty.
Qed.

Lemma build_table_name_select :
  (exists query, Built "SELECT * FROM t" None = Built query None)
  /\ (exists query,
        build (new _Select (Some "t") None None)
        = Returns (Built query None)).
Proof.
  split.
  - exact (proj1 (proj2 (build_table_name _Select None None)) "t" _ eq_refl).
  - apply (proj2 (proj2 (build_table_name _Select None None)) "t").
    right. split; [by left | discriminate].
Defined.

(** ** [_Update] *)

(** C5, at [_Update("t", {"x": 9}, _Condition("id", 1))]: [build] raises
    [ValueError], the key [x] not being two characters long. *)
Theorem Update_x_9_raises :
  build (new _Update (Some "t") (Some [("x", PyInt 9)])
           (Some (Condition (_Condition.__init__ (Some "id") (PyInt 1)))))
  = Raises ValueError.
Proof. reflexivity. Qed.

(** A key of two characters is taken for a column and its value. *)
Example Update_xy :
  build (new _Update (Some "t") (Some [("xy", PyInt 9)])
           (Some (Condition (_Condition.__init__ (Some "id") (PyInt 1)))))
  = Returns (Built "UPDATE t SET x = y WHERE id ('=',) 1" (Some [PyInt 9])).
Proof. reflexivity. Qed.

(** ** [_Insert] *)

(** C6: [_Insert("t", {"a": 1, "b": 2})] builds the statement
    [INSERT INTO t (a, b) VALUES (?, ?)], with the columns in the order
    of the value map and a placeholder for each value, and the parameters
    [1, 2] in the same order. *)
Theorem Insert_a_b :
  build (new _Insert (Some "t") (Some [("a", PyInt 1); ("b", PyInt 2)]) None)
  = Returns (Built "INSERT INTO t (a, b) VALUES (?, ?)"
               (Some [PyInt 1; PyInt 2])).
Proof. reflexivity. Qed.

(** As many placeholders as the value map has items. *)
Lemma iter_str_repeat_length (n : nat) :
  length (iter_str (str_repeat "?" n)) = n
  /\ Forall (fun item => item = "?") (iter_str (str_repeat "?" n)).
Proof.
  induction n as [| n [IHl IHf]]; [by split |].
  change (str_repeat "?" (S n)) with (String "?" (str_repeat "?" n)).
  simpl. split; [by rewrite IHl | by constructor].
Qed.

(** ** [_Select] *)

(** [_Select("t")] does not return an empty sequence of parameters. *)
Lemma Select_t_args_not_empty :
  build (new _Select (Some "t") None None)
  <> Returns (Built "SELECT * FROM t" (Some [])).
Proof. vm_compute. discriminate. Qed.

(** C7, as the code has it: [_Select("t")], with neither value map nor
    where-map, builds the statement [SELECT * FROM t] with [None] for
    parameters. *)
Theorem Select_t :
  build (new _Select (Some "t") None None)
  = Returns (Built "SELECT * FROM t" None).
Proof. reflexivity. Qed.

(** ** The parameters *)

(** C10: the parameters of a built statement are the values of the
    value map in its order, and [None] without a value map; they are the
    same whatever the where-map is, whose values are in the statement
    text only. *)
Theorem build_args (self : _Query) (query : string)
  (args : option (list PyVal)) :
  build self = Returns (Built query args) ->
  args = option_map (List.map snd) (_value_map self)
  /\ (_value_map self = None -> args = None)
  /\ (forall (self' : _Query) (query' : string) (args' : option (list PyVal)),
        _value_map self' = _value_map self ->
        build self' = Returns (Built query' args') ->
        args' = args).
Proof.
  assert (Hargs : forall q s a, build q = Returns (Built s a) ->
                   a = option_map (List.map snd) (_value_map q)).
  { intros q s a. unfold build.
    destruct (_table_name q); [| discriminate].
    destruct (_get_query_str q); [| discriminate].
    rewrite bind_returns, get_args_values. by intros [= _ <-]. }
  intros H. apply Hargs in H as ->. split; [done | split].
  - by intros ->.
  - intros self' query' args' Hmap H'. apply Hargs in H' as ->.
    by rewrite Hmap.
Qed.

Lemma build_args_Select_a :
  build (new _Select (Some "t") (Some [("a", PyInt 1)])
           (Some (Condition (_Condition.__init__ (Some "id") (PyInt 5)))))
  = Returns (Built "SELECT a FROM t WHERE id ('=',) 5" (Some [PyInt 1]))
  /\ Some [PyInt 1] = option_map (List.map snd) (Some [("a", PyInt 1)]).
Proof.
  split; [reflexivity |].
  exact (proj1 (build_args
                  (new _Select (Some "t") (Some [("a", PyInt 1)])
                     (Some (Condition
                              (_Condition.__init__ (Some "id") (PyInt 5)))))
                  "SELECT a FROM t WHERE id ('=',) 5"
                  (Some [PyInt 1]) eq_refl)).
Defined.

(** ** [_Model] *)

(** *** Reading a row *)

Lemma equal_ignore_case_refl (name : string) :
  equal_ignore_case name name = true.
Proof. unfold equal_ignore_case. by rewrite String.eqb_refl. Qed.

(** [row[name]] returns for every name [row.keys()] gives. *)
Lemma Row_getitem_key (row : list (string * PyVal)) (sql_key : string) :
  sql_key ∈ Row_keys row -> exists v, Row_getitem row sql_key = Returns v.
Proof.
  unfold Row_keys. induction row as [| [column v0] rest IH]; simpl.
  - by intros ?%elem_of_nil.
  - intros [-> | Hin]%elem_of_cons.
    + rewrite equal_ignore_case_refl. by exists v0.
    + destruct (equal_ignore_case column sql_key); [by exists v0 | by apply IH].
Qed.

(** With column names that differ, [row[name]] is the value of the
    column of that name. *)
Lemma Row_getitem_distinct (row : list (string * PyVal)) (sql_key : string)
  (v : PyVal) :
  distinct_columns (Row_keys row) = true ->
  (sql_key, v) ∈ row -> Row_getitem row sql_key = Returns v.
Proof.
  unfold Row_keys. induction row as [| [column v0] rest IH]; simpl.
  - by intros _ ?%elem_of_nil.
  - intros [Hhead Hrest]%andb_prop [[= -> ->] | Hin]%elem_of_cons.
    + by rewrite equal_ignore_case_refl.
    + assert (Hne : equal_ignore_case column sql_key = false).
      { apply negb_true_iff.
        apply (proj1 (forallb_forall _ _) Hhead).
        apply list_elem_of_In, list_elem_of_fmap. by exists (sql_key, v). }
      rewrite Hne. by apply IH.
Qed.

(** *** The loop of [from_sqlite] *)

Section from_sqlite.

Variable row : list (string * PyVal).
Variable sqlite_field_mapping : option (gmap string string).

Local Abbreviation loop self keys :=
  (from_sqlite_loop self keys row sqlite_field_mapping).
Local Abbreviation key := (key_of sqlite_field_mapping).

(** The loop ends without raising. *)
Lemma from_sqlite_loop_returns (keys : list string) (self : gmap string PyVal) :
  keys ⊆ Row_keys row -> snd (loop self keys) = Returns ().
Proof.
  revert self. induction keys as [| sql_key rest IH]; intros self Hsub.
  - done.
  - simpl. destruct (Row_getitem_key row sql_key) as [v ->].
    + apply Hsub. by left.
    + apply IH. intros k Hk. apply Hsub. by right.
Qed.

(** A key no column is stored under keeps what it had. *)
Lemma from_sqlite_loop_other (keys : list string) (self : gmap string PyVal)
  (k : string) :
  k ∉ key <$> keys -> fst (loop self keys) !! k = self !! k.
Proof.
  revert self.
  induction keys as [| sql_key rest IH]; intros self Hk; [done |].
  simpl. rewrite fmap_cons in Hk. apply not_elem_of_cons in Hk as [Hne Hk].
  destruct (Row_getitem row sql_key) as [v | e]; [| done].
  rewrite IH by done. by rewrite lookup_insert_ne.
Qed.

(** A key some column is stored under holds what [row[...]] gave for
    one such column. *)
Lemma from_sqlite_loop_stored (keys : list string) (self : gmap string PyVal)
  (sql_key : string) :
  keys ⊆ Row_keys row -> sql_key ∈ keys ->
  exists sql_key' v,
    sql_key' ∈ keys /\ key sql_key' = key sql_key
    /\ Row_getitem row sql_key' = Returns v
    /\ fst (loop self keys) !! key sql_key = Some v.
Proof.
  revert self sql_key.
  induction keys as [| k0 rest IH]; intros self sql_key Hsub Hin.
  - by apply elem_of_nil in Hin.
  - assert (Hrest : rest ⊆ Row_keys row).
    { intros k Hk. apply Hsub. by right. }
    simpl.
    destruct (Row_getitem_key row k0) as [v0 Hv0]; [apply Hsub; by left |].
    rewrite Hv0.
    destruct (decide (key sql_key ∈ key <$> rest)) as [Hlater | Hlast].
    + apply list_elem_of_fmap in Hlater as (k1 & Heq & Hk1).
      destruct (IH (<[key k0 := v0]> self) k1 Hrest Hk1)
        as (k' & v & Hk' & Hkey & Hget & Hlook).
      exists k', v. repeat split; [by right | congruence | done |].
      by rewrite Heq.
    + apply elem_of_cons in Hin as [-> | Hin].
      * exists k0, v0. repeat split; [by left | done |].
        rewrite (from_sqlite_loop_other rest _ _ Hlast).
        by rewrite lookup_insert_eq.
      * destruct Hlast. by apply list_elem_of_fmap_2.
Qed.

(** When no two columns are stored under one key, each key holds what
    [row[sql_key]] gave for its own column. *)
Lemma from_sqlite_loop_own (keys : list string) (self : gmap string PyVal)
  (sql_key : string) (v : PyVal) :
  keys ⊆ Row_keys row -> NoDup (key <$> keys) -> sql_key ∈ keys ->
  Row_getitem row sql_key = Returns v ->
  fst (loop self keys) !! key sql_key = Some v.
Proof.
  revert self.
  induction keys as [| k0 rest IH]; intros self Hsub Hnodup Hin Hget.
  - by apply elem_of_nil in Hin.
  - rewrite fmap_cons in Hnodup. apply NoDup_cons in Hnodup as [Hfresh Hnodup].
    simpl.
    destruct (Row_getitem_key row k0) as [v0 Hv0]; [apply Hsub; by left |].
    rewrite Hv0. apply elem_of_cons in Hin as [-> | Hin].
    + rewrite (from_sqlite_loop_other rest _ _ Hfresh).
      rewrite lookup_insert_eq. congruence.
    + apply IH; [| done..]. intros k Hk. apply Hsub. by right.
Qed.

End from_sqlite.

(** The key of a column: the mapped name where the mapping has an entry
    for it, the name of the column otherwise. *)
Lemma key_of_mapped (mapping : gmap string string)
  (sql_name app_name : string) :
  mapping !! sql_name = Some app_name ->
  key_of (Some mapping) sql_name = app_name.
Proof. unfold key_of. by intros ->. Qed.

Lemma key_of_unmapped (sqlite_field_mapping : option (gmap string string))
  (sql_name : string) :
  match sqlite_field_mapping with
  | Some mapping => mapping !! sql_name = None
  | None => True
  end ->
  key_of sqlite_field_mapping sql_name = sql_name.
Proof. unfold key_of. destruct sqlite_field_mapping; [by intros -> | done]. Qed.

(** A row with the columns [id] and [ID], read without a mapping: under
    [ID] the model holds the value of the column [id], [row['ID']] being
    the first column of that name up to case, and not the value of the
    column [ID] itself. *)
Lemma from_sqlite_id_ID_not_own_value :
  ("ID", PyInt 8) ∈ [("id", PyInt 7); ("ID", PyInt 8)]
  /\ fst (from_sqlite ∅ [("id", PyInt 7); ("ID", PyInt 8)] None)
     !! key_of None "ID" = Some (PyInt 7)
  /\ fst (from_sqlite ∅ [("id", PyInt 7); ("ID", PyInt 8)] None)
     !! key_of None "ID" <> Some (PyInt 8).
Proof.
  split; [by right; left |].
  split; [vm_compute; reflexivity | vm_compute; discriminate].
Qed.

(** C8, as the code has it: [from_sqlite] returns; afterwards, for each
    column of the row, the model has the key of that column (the mapped
    name where the mapping has an entry, the column name otherwise) and
    holds under it a value read from the row as it is, for a column of
    that key.  When the column names differ, also up to case, and no two
    columns have the same key, each key holds the value of its own
    column.  Keys of no column keep what the model had. *)
Theorem from_sqlite_round_trip (self : gmap string PyVal)
  (row : list (string * PyVal))
  (sqlite_field_mapping : option (gmap string string)) :
  let key := key_of sqlite_field_mapping in
  let self' := fst (from_sqlite self row sqlite_field_mapping) in
  snd (from_sqlite self row sqlite_field_mapping) = Returns ()
  /\ (forall sql_key : string,
        (forall mapping app_name,
           sqlite_field_mapping = Some mapping ->
           mapping !! sql_key = Some app_name -> key sql_key = app_name)
        /\ (match sqlite_field_mapping with
            | Some mapping => mapping !! sql_key = None
            | None => True
            end -> key sql_key = sql_key))
  /\ (forall sql_key : string,
        sql_key ∈ Row_keys row ->
        exists sql_key' v,
          sql_key' ∈ Row_keys row /\ key sql_key' = key sql_key
          /\ Row_getitem row sql_key' = Returns v
          /\ self' !! key sql_key = Some v)
  /\ (distinct_columns (Row_keys row) = true ->
      NoDup (key <$> Row_keys row) ->
      forall (sql_key : string) (v : PyVal),
        (sql_key, v) ∈ row -> self' !! key sql_key = Some v)
  /\ (forall k : string, k ∉ key <$> Row_keys row -> self' !! k = self !! k).
Proof.
  intros key self'. subst key self'. unfold from_sqlite.
  split; [by apply from_sqlite_loop_returns |].
  split; [| split; [| split]].
  - intros sql_key. split.
    + intros mapping app_name ->. apply key_of_mapped.
    + apply key_of_unmapped.
  - intros sql_key Hin. by apply from_sqlite_loop_stored.
  - intros Hdistinct Hnodup sql_key v Hin.
    apply from_sqlite_loop_own; [done | done | |].
    + apply list_elem_of_fmap. by exists (sql_key, v).
    + by apply Row_getitem_distinct.
  - intros k Hk. by apply from_sqlite_loop_other.
Qed.

(** A model made from a row has the keys of the columns and no other. *)
Lemma new_Model_keys (row : list (string * PyVal))
  (sqlite_field_mapping : option (gmap string string)) (k : string) :
  is_Some (fst (new_Model (Some row) sqlite_field_mapping) !! k)
  <-> k ∈ key_of sqlite_field_mapping <$> Row_keys row.
Proof.
  simpl. unfold from_sqlite. split.
  - intros Hsome.
    destruct (decide (k ∈ key_of sqlite_field_mapping <$> Row_keys row))
      as [| Hout]; [done |].
    rewrite (from_sqlite_loop_other _ _ _ _ _ Hout), lookup_empty in Hsome.
    by destruct Hsome.
  - intros (sql_key & -> & Hin)%list_elem_of_fmap.
    destruct (from_sqlite_loop_stored row sqlite_field_mapping
                (Row_keys row) ∅ sql_key) as (? & v & _ & _ & _ & ->);
      by eauto.
Qed.

Lemma from_sqlite_round_trip_track :
  fst (from_sqlite ∅ [("id", PyInt 7); ("title", PyStr "So What")]
         (Some {[ "title" := "name" ]}))
  !! "name" = Some (PyStr "So What").
Proof.
  refine (proj1 (proj2 (proj2 (proj2
            (from_sqlite_round_trip ∅
               [("id", PyInt 7); ("title", PyStr "So What")]
               (Some {[ "title" := "name" ]})))))
            _ _ "title" (PyStr "So What") _).
  - reflexivity.
  - compute_done.
  - do 2 constructor.
Defined.

(** *** [_set_if_tag_exists] *)

(** How the call ends: it raises what [source[...]] raises, and
    [IndexError] on an empty list; otherwise it returns. *)
Lemma set_if_tag_exists_outcome (self : gmap string PyVal) (field_name : string)
  (source : subscriptable) (source_field : option string) :
  snd (_set_if_tag_exists self field_name source source_field)
  = match source (default field_name source_field) with
    | Raises e => Raises e
    | Returns (PyList []) => Raises IndexError
    | Returns _ => Returns ()
    end.
Proof.
  unfold _set_if_tag_exists.
  destruct source_field; simpl;
    by destruct (source _) as [[| | | | [|] |] |].
Qed.

(** C9: the model changes only when [source[source_field]] returns a
    value other than [None]; of a list it then holds the first element
    under [field_name], of any other value the value itself; when the
    subscript raises, as for a key missing from a dict, or gives [None]
    or a list without elements, the model stays as it was;
    [source_field] left out stands for [field_name]. *)
Theorem set_if_tag_exists_copies (self : gmap string PyVal)
  (field_name : string) (source : subscriptable)
  (source_field : option string) :
  let name := default field_name source_field in
  let self' := fst (_set_if_tag_exists self field_name source source_field) in
  (self' <> self -> exists v, source name = Returns v /\ v <> PyNone)
  /\ (forall first rest,
        source name = Returns (PyList (first :: rest)) ->
        self' = <[field_name := first]> self)
  /\ (forall v,
        source name = Returns v -> v <> PyNone -> (forall l, v <> PyList l) ->
        self' = <[field_name := v]> self)
  /\ ((forall v, source name <> Returns v) \/ source name = Returns PyNone
      \/ source name = Returns (PyList []) ->
      self' = self)
  /\ (forall d : gmap string PyVal,
        source = dict_getitem d -> d !! name = None -> self' = self)
  /\ _set_if_tag_exists self field_name source None
     = _set_if_tag_exists self field_name source (Some field_name).
Proof.
  intros name self'. subst self'. unfold _set_if_tag_exists. cbv zeta.
  replace (match source_field with None => field_name | Some f => f end)
    with name by (by destruct source_field).
  clearbody name. split_and!.
  - intros Hne. destruct (source name) as [[| | | | [|] |] |];
      simpl in Hne; try done; by eexists.
  - by intros first rest ->.
  - intros v -> Hnone Hlist. destruct v; try done. by destruct (Hlist l).
  - intros [Habsent | [-> | ->]]; [| done..].
    destruct (source name) as [v |]; [by destruct (Habsent v) | done].
  - intros d -> Hd. unfold dict_getitem. by rewrite Hd.
  - done.
Qed.

Lemma set_if_tag_exists_copies_title :
  fst (_set_if_tag_exists ∅ "name"
         (dict_getitem {[ "TITLE" := PyList [PyStr "So What"] ]})
         (Some "TITLE"))
  = <[ "name" := PyStr "So What" ]> ∅.
Proof.
  exact (proj1 (proj2
                  (set_if_tag_exists_copies ∅ "name"
                     (dict_getitem {[ "TITLE" := PyList [PyStr "So What"] ]})
                     (Some "TITLE")))
           (PyStr "So What") [] eq_refl).
Defined.

(** * Further properties *)

(** ** Strings *)

Lemma append_cons (c : ascii) (s t : string) :
  String c s +:+ t = String c (s +:+ t).
Proof. reflexivity. Qed.

Lemma append_not_empty_r (s t : string) : t <> "" -> s +:+ t <> "".
Proof. intros Ht. destruct s; [done |]. by rewrite append_cons. Qed.

(** Stripping on the right leaves alone what stands before a part that
    does not vanish. *)
Lemma rstrip_app (s t : string) :
  rstrip t <> "" -> rstrip (s +:+ t) = s +:+ rstrip t.
Proof.
  intros Ht. induction s as [| c s IH]; [done |].
  rewrite !append_cons. simpl. rewrite IH.
  destruct (s +:+ rstrip t) eqn:E; [| done].
  by destruct (append_not_empty_r s (rstrip t) Ht).
Qed.

(** A part made of whitespace only is dropped at the end. *)
Lemma rstrip_app_blank (s t : string) :
  rstrip t = "" -> rstrip (s +:+ t) = rstrip s.
Proof.
  intros Ht. induction s as [| c s IH]; [done |].
  rewrite append_cons. simpl. by rewrite IH.
Qed.

Lemma iter_str_repeat (n : nat) :
  iter_str (str_repeat "?" n) = replicate n "?".
Proof.
  induction n as [| n IH]; [done |].
  change (str_repeat "?" (S n)) with (String "?" (str_repeat "?" n)).
  simpl. by rewrite IH.
Qed.

(** ** More on the builders *)

(** X1, [_Insert._get_query_str], [_Query._get_columns_str],
    [_Query._get_values_str]: an [_Insert] with a table name and a value
    map always builds, whatever its where-map, which it does not read:
    the columns are the keys in order, there is one [?] for each
    parameter, and the parameters are the values in order. *)
Theorem Insert_statement (table : string) (value_map : list (string * PyVal))
  (where_ : option where_map) :
  build (new _Insert (Some table) (Some value_map) where_)
  = Returns
      (Built ("INSERT INTO " +:+ table
              +:+ " (" +:+ str_join ", " (value_map.*1)
              +:+ ") VALUES ("
              +:+ str_join ", " (replicate (length (value_map.*2)) "?")
              +:+ ")")
         (Some (value_map.*2))).
Proof.
  rewrite Insert_build. unfold _get_columns_str, _get_values_str.
  cbn [_value_map new option_map]. by rewrite iter_str_repeat, !length_fmap.
Qed.

(** The text of a statement is made from the keys of the value map
    alone. *)
Lemma get_query_str_keys (c : query_class) (table : option string)
  (value_map value_map' : option (list (string * PyVal)))
  (where_ : option where_map) :
  option_map (List.map fst) value_map = option_map (List.map fst) value_map' ->
  _get_query_str (new c table value_map where_)
  = _get_query_str (new c table value_map' where_).
Proof.
  intros Hkeys.
  destruct value_map as [l |], value_map' as [l' |];
    simpl in Hkeys; try discriminate; [| done].
  injection Hkeys as Hkeys.
  assert (Hlen : length l = length l').
  { by rewrite <- (length_map fst l), Hkeys, length_map. }
  unfold _get_query_str, _get_columns_str, _get_values_str,
    _get_changes_string, where_entry, _get_where_conditions.
  cbn [cls _table_name _value_map _where_map new].
  by rewrite Hkeys, Hlen.
Qed.

(** X2, [_Query.build] of all four subclasses: no value of the value map is
    written into the statement.  Two builders that differ in the values
    only, and not in the keys, build the same text, each with its own
    values for parameters. *)
Theorem statement_ignores_values (c : query_class) (table : option string)
  (value_map value_map' : list (string * PyVal)) (where_ : option where_map)
  (query : string) (args : option (list PyVal)) :
  value_map.*1 = value_map'.*1 ->
  build (new c table (Some value_map) where_) = Returns (Built query args) ->
  build (new c table (Some value_map') where_)
  = Returns (Built query (Some (value_map'.*2))).
Proof.
  intros Hkeys. unfold build. cbn [_table_name new].
  destruct table as [table |]; [| done].
  rewrite (get_query_str_keys c (Some table) (Some value_map)
             (Some value_map') where_) by (simpl; by f_equal).
  destruct (_get_query_str _) as [q | e]; [| done].
  rewrite !bind_returns. by intros [= -> _].
Qed.

Lemma statement_ignores_values_select :
  build (new _Select (Some "t") (Some [("a", PyStr "x'; DROP TABLE t; --")])
           None)
  = Returns (Built "SELECT a FROM t" (Some [PyStr "x'; DROP TABLE t; --"])).
Proof.
  exact (statement_ignores_values _Select (Some "t")
           [("a", PyInt 1)] [("a", PyStr "x'; DROP TABLE t; --")] None
           "SELECT a FROM t" (Some [PyInt 1]) eq_refl eq_refl).
Defined.

(** Keys of two characters all pass the loop of
    [_get_changes_string]. *)
Lemma changes_of_returns (keys : list string) :
  Forall (fun key => String.length key = 2) keys ->
  exists changes, changes_of keys = Returns changes.
Proof.
  induction 1 as [| key rest Hkey _ [changes IH]]; [by eexists |].
  destruct key as [| a [| b [| c key]]]; try done.
  simpl. rewrite IH. by eexists.
Qed.

(** X3, [_Query.build] with [_get_query_str] of the four subclasses: when a
    builder with a table name builds.  An [_Insert] always does; a
    [_Select] and a [_Delete] do when the where-map renders; an [_Update]
    when besides every key of the value map has exactly two
    characters.  A builder with a table name that does not build
    raises. *)
Theorem build_returns_iff (c : query_class) (table : string)
  (value_map : option (list (string * PyVal))) (where_ : option where_map) :
  ((exists query args,
      build (new c (Some table) value_map where_)
      = Returns (Built query args))
   <-> match c with
       | _Insert => True
       | _Select | _Delete => renders where_
       | _Update =>
           (forall items,
              value_map = Some items ->
              Forall (fun key => String.length key = 2) (List.map fst items))
           /\ renders where_
       end)
  /\ ((exists query args,
         build (new c (Some table) value_map where_)
         = Returns (Built query args))
      \/ exists e, build (new c (Some table) value_map where_) = Raises e).
Proof.
  rewrite (build_with_table (new c (Some table) value_map where_)
             table eq_refl).
  split; [| destruct (_get_query_str _) as [query | e];
            [left; by eexists _, _ | right; by eexists]].
  unfold _get_query_str, where_entry, _get_where_conditions,
    _get_changes_string.
  cbn [cls _table_name _value_map _where_map new str_of].
  destruct c.
  - rewrite substitute_insert. split; [done | by eexists _, _].
  - destruct where_ as [w |]; simpl renders.
    + destruct (where_str w) as [s | e].
      * rewrite !bind_returns, substitute_select.
        split; [by eexists | by eexists _, _].
      * split; [by intros (? & ? & ?) | by intros [? ?]].
    + rewrite bind_returns, substitute_select. split; [done | by eexists _, _].
  - split.
    + intros (query & args & H). split.
      * intros items ->.
        destruct (decide (Forall (fun key => String.length key = 2)
                            (List.map fst items))) as [| Hbad]; [done |].
        apply not_Forall_Exists in Hbad; [| apply _].
        by rewrite (changes_of_raises _ Hbad) in H.
      * destruct where_ as [w |]; [| done]. simpl.
        destruct (where_str w) as [s | e]; [by eexists |].
        destruct value_map as [items |];
          [destruct (changes_of _) |]; discriminate H.
    + intros [Hkeys Hw].
      assert (exists changes,
                match value_map with
                | Some value_map =>
                    let! changes := changes_of (List.map fst value_map) in
                    Returns (str_join ", " changes)
                | None => Returns ""
                end = Returns changes) as [changes ->].
      { destruct value_map as [items |]; [| by eexists].
        destruct (changes_of_returns _ (Hkeys items eq_refl)) as [l Hl].
        rewrite Hl. by eexists. }
      destruct where_ as [w |].
      * destruct Hw as [s ->].
        rewrite !bind_returns, substitute_update. by eexists _, _.
      * rewrite !bind_returns, substitute_update. by eexists _, _.
  - destruct where_ as [w |]; simpl renders.
    + destruct (where_str w) as [s | e].
      * rewrite !bind_returns, substitute_delete.
        split; [by eexists | by eexists _, _].
      * split; [by intros (? & ? & ?) | by intros [? ?]].
    + split; [done | by eexists _, _].
Qed.

Lemma build_returns_iff_update :
  exists query args,
    build (new _Update (Some "t") (Some [("ab", PyInt 1)]) None)
    = Returns (Built query args).
Proof.
  apply (proj2 (proj1 (build_returns_iff _Update "t"
                         (Some [("ab", PyInt 1)]) None))).
  split; [| exact I].
  intros items [= <-]. by repeat constructor.
Defined.

Lemma rstrip_app_ne (s t : string) : rstrip t <> "" -> rstrip (s +:+ t) <> "".
Proof. intros Ht. rewrite rstrip_app by done. by apply append_not_empty_r. Qed.

(** [_Update] whose changes and where-map render. *)
Lemma Update_build (table : string) (value_map : option (list (string * PyVal)))
  (where_ : option where_map) (changes rendered : string) :
  _get_changes_string (new _Update (Some table) value_map where_)
  = Returns changes ->
  match where_ with
  | Some w => where_str w = Returns rendered
  | None => True
  end ->
  build (new _Update (Some table) value_map where_)
  = Returns (Built (strip ("UPDATE " +:+ table +:+ " SET " +:+ changes +:+ " "
                           +:+ match where_ with
                               | Some _ => "WHERE " +:+ rendered
                               | None => ""
                               end))
               (option_map (List.map snd) value_map)).
Proof.
  intros Hc Hw.
  rewrite (build_with_table (new _Update (Some table) value_map where_)
             table eq_refl).
  unfold _get_query_str. cbn [cls new]. rewrite Hc.
  unfold where_entry, _get_where_conditions.
  cbn [_table_name _where_map new str_of].
  destruct where_ as [w |]; [rewrite Hw |]; rewrite ?bind_returns;
    by rewrite substitute_update.
Qed.

(** X4, [_Select._get_query_str]: without a where-map, and for a table name
    that is not empty and does not end in whitespace, the statement is
    [SELECT <columns> FROM <table>] with no blank left at the end. *)
Theorem Select_no_where (table : string)
  (value_map : option (list (string * PyVal))) :
  table <> "" -> rstrip table = table ->
  build (new _Select (Some table) value_map None)
  = Returns (Built ("SELECT "
                    +:+ match value_map with
                        | Some items => str_join ", " (List.map fst items)
                        | None => "*"
                        end
                    +:+ " FROM " +:+ table)
               (option_map (List.map snd) value_map)).
Proof.
  intros Hne Hclean.
  rewrite (Select_build table value_map None "" I). do 3 f_equal.
  unfold strip, _get_columns_str. cbn [_value_map new].
  set (columns := match value_map with Some _ => _ | None => _ end).
  change (lstrip ("SELECT " +:+ ?x)) with ("SELECT " +:+ x).
  assert (Htable : rstrip (table +:+ " " +:+ "") = table)
    by (by rewrite rstrip_app_blank).
  rewrite (rstrip_app "SELECT "), (rstrip_app columns), (rstrip_app " FROM ")
    by (repeat first [by rewrite Htable | apply rstrip_app_ne]).
  by rewrite Htable.
Qed.

Lemma Select_no_where_tracks :
  build (new _Select (Some "tracks") (Some [("id", PyNone); ("name", PyNone)])
           None)
  = Returns (Built "SELECT id, name FROM tracks" (Some [PyNone; PyNone])).
Proof.
  apply (Select_no_where "tracks" (Some [("id", PyNone); ("name", PyNone)]));
    [discriminate | reflexivity].
Defined.

(** X5, [_Query._get_where_conditions] with [_Condition.__str__]: a
    condition whose column or value is [None] is still written as a
    where-clause, an empty one: the [_Select] statement ends in [WHERE],
    the [_Delete] statement in [WHERE] and a blank. *)
Theorem unset_condition_empty_where (table : string)
  (value_map : option (list (string * PyVal))) (c : _Condition.t) :
  _Condition._column_name c = None \/ _Condition._value c = PyNone ->
  build (new _Select (Some table) value_map (Some (Condition c)))
  = Returns (Built ("SELECT "
                    +:+ match value_map with
                        | Some items => str_join ", " (List.map fst items)
                        | None => "*"
                        end
                    +:+ " FROM " +:+ table +:+ " WHERE")
               (option_map (List.map snd) value_map))
  /\ build (new _Delete (Some table) value_map (Some (Condition c)))
     = Returns (Built ("DELETE FROM " +:+ table +:+ " WHERE ")
                  (option_map (List.map snd) value_map)).
Proof.
  intros Hunset. apply Condition_str_unset in Hunset. split.
  - rewrite (Select_build table value_map (Some (Condition c)) "")
      by (simpl; by rewrite Hunset).
    do 3 f_equal. unfold strip, _get_columns_str. cbn [_value_map new].
    set (columns := match value_map with Some _ => _ | None => _ end).
    change (lstrip ("SELECT " +:+ ?x)) with ("SELECT " +:+ x).
    by rewrite (rstrip_app "SELECT "), (rstrip_app columns),
      (rstrip_app " FROM "), (rstrip_app table)
      by (repeat first [by vm_compute | apply rstrip_app_ne]).
  - rewrite (Delete_where_renders table value_map (Condition c) "")
      by (simpl; by rewrite Hunset).
    done.
Qed.

Lemma unset_condition_empty_where_id :
  build (new _Delete (Some "t") None
           (Some (Condition (_Condition.__init__ (Some "id") PyNone))))
  = Returns (Built "DELETE FROM t WHERE " None).
Proof.
  apply (proj2 (unset_condition_empty_where "t" None
                  (_Condition.__init__ (Some "id") PyNone)
                  (or_intror eq_refl))).
Defined.

(** X6, [_Update._get_query_str], [_Update._get_changes_string]: with no
    value map, or an empty one, and no where-map, the statement is
    [UPDATE <table> SET] and nothing after it. *)
Theorem Update_nothing_to_set (table : string)
  (value_map : option (list (string * PyVal))) :
  value_map = None \/ value_map = Some [] ->
  build (new _Update (Some table) value_map None)
  = Returns (Built ("UPDATE " +:+ table +:+ " SET")
               (option_map (List.map snd) value_map)).
Proof.
  intros Hempty.
  rewrite (Update_build table value_map None "" "")
    by (by destruct Hempty as [-> | ->]).
  do 3 f_equal. unfold strip.
  change (lstrip ("UPDATE " +:+ ?x)) with ("UPDATE " +:+ x).
  by rewrite (rstrip_app "UPDATE "), (rstrip_app table)
    by (repeat first [by vm_compute | apply rstrip_app_ne]).
Qed.

Lemma Update_nothing_to_set_t :
  build (new _Update (Some "t") (Some []) None)
  = Returns (Built "UPDATE t SET" (Some [])).
Proof. apply (Update_nothing_to_set "t" (Some [])). by right. Defined.

(** X7, [_Update._get_changes_string] under [_Query.build]: with a
    table name, a value map with a key that is not two characters long
    makes [build] raise [ValueError], whatever the where-map is: the
    where-map is not rendered before.  Without a table name the same
    builder raises nothing and returns the error dict. *)
Theorem Update_bad_key_raises (table : option string)
  (value_map : list (string * PyVal)) (where_ : option where_map) :
  Exists (fun key => String.length key <> 2) (List.map fst value_map) ->
  build (new _Update table (Some value_map) where_)
  = match table with
    | Some _ => Raises ValueError
    | None => Returns (Error "No table name provided.")
    end.
Proof.
  intros Hbad. destruct table as [table |]; [| done].
  by apply Update_build_raises.
Qed.

Lemma Update_bad_key_raises_name :
  build (new _Update (Some "tracks") (Some [("id", PyInt 1); ("name", PyNone)])
           (Some (new_ConditionGroup [])))
  = Raises ValueError.
Proof.
  apply (Update_bad_key_raises (Some "tracks")
           [("id", PyInt 1); ("name", PyNone)]).
  right. left. simpl. lia.
Defined.

(** The changes of keys of two characters. *)
Lemma changes_of_two (keys : list string) :
  Forall (fun key => String.length key = 2) keys ->
  changes_of keys
  = Returns (List.map (fun key => String.substring 0 1 key +:+ " = "
                                  +:+ String.substring 1 1 key) keys).
Proof.
  induction 1 as [| key rest Hkey _ IH]; [done |].
  destruct key as [| a [| b [| c key]]]; try done.
  simpl. by rewrite IH.
Qed.

(** X8, [_Update._get_changes_string]: when every key of the value map has
    two characters, each key [ab] gives the change [a = b], its first
    character for column and its second for value; the values of the
    value map are not read. *)
Theorem Update_changes_from_keys (table : option string)
  (value_map : list (string * PyVal)) (where_ : option where_map) :
  Forall (fun key => String.length key = 2) (List.map fst value_map) ->
  _get_changes_string (new _Update table (Some value_map) where_)
  = Returns (str_join ", "
               (List.map (fun key => String.substring 0 1 key +:+ " = "
                                     +:+ String.substring 1 1 key)
                  (List.map fst value_map))).
Proof.
  intros Hkeys. unfold _get_changes_string. cbn [_value_map new].
  by rewrite (changes_of_two _ Hkeys).
Qed.

Lemma Update_changes_from_keys_id :
  _get_changes_string
    (new _Update (Some "t") (Some [("id", PyInt 7); ("no", PyInt 8)]) None)
  = Returns "i = d, n = o".
Proof.
  apply (Update_changes_from_keys (Some "t")
           [("id", PyInt 7); ("no", PyInt 8)] None).
  by repeat constructor.
Defined.

(** X9, [_ConditionGroup.__str__] under [_Query.build]: with a table name
    and a constructed group for where-map none of [_Select], [_Update]
    and [_Delete] builds; the first and the last raise [AttributeError],
    as [_Update] does unless a key of its value map, not two characters
    long, has stopped it before: then it raises [ValueError]. *)
Theorem group_never_builds (c : query_class) (table : string)
  (value_map : option (list (string * PyVal))) (items : list where_map) :
  c <> _Insert ->
  exists e,
    build (new c (Some table) value_map (Some (new_ConditionGroup items)))
    = Raises e
    /\ (e = AttributeError
        \/ c = _Update /\ e = ValueError
           /\ exists l, value_map = Some l
                /\ Exists (fun key => String.length key <> 2) (List.map fst l))
    /\ (c = _Update
        /\ (exists l, value_map = Some l
               /\ Exists (fun key => String.length key <> 2) (List.map fst l))
        -> e = ValueError).
Proof.
  intros Hc.
  rewrite (build_with_table
             (new c (Some table) value_map (Some (new_ConditionGroup items)))
             table eq_refl).
  unfold _get_query_str, where_entry, _get_where_conditions,
    _get_changes_string.
  cbn [cls _table_name _value_map _where_map new str_of].
  destruct c; [done | | |].
  - exists AttributeError. split_and!; [done | by left | by intros [? _]].
  - destruct value_map as [l |].
    + destruct (decide (Forall (fun key => String.length key = 2)
                          (List.map fst l))) as [Hok | Hbad].
      * rewrite (changes_of_two _ Hok). exists AttributeError.
        split_and!; [done | by left |].
        intros [_ (l' & [= <-] & Hbad)].
        apply Exists_exists in Hbad as (key & Hkey & Hlen).
        by destruct (Hlen (proj1 (Forall_forall _ _) Hok key Hkey)).
      * apply not_Forall_Exists in Hbad; [| apply _].
        rewrite (changes_of_raises _ Hbad). exists ValueError.
        split_and!; [done | | done]. right. repeat split. by exists l.
    + exists AttributeError. split_and!; [done | by left |].
      by intros [_ (l & ? & _)].
  - exists AttributeError. split_and!; [done | by left | by intros [? _]].
Qed.

Lemma group_never_builds_select :
  exists e,
    build (new _Select (Some "t") None
             (Some (new_ConditionGroup
                      [Condition (_Condition.__init__ (Some "id") (PyInt 1))])))
    = Raises e.
Proof.
  destruct (group_never_builds _Select "t" None
              [Condition (_Condition.__init__ (Some "id") (PyInt 1))])
    as [e [He _]]; [discriminate |].
  by exists e.
Defined.

(** ** More on conditions *)

(** X10, [_Condition.__str__]: the rendering is empty exactly when the column
    or the value is [None]; a value such as [0], [False] or the empty
    string is rendered. *)
Theorem Condition_str_empty_iff (c : _Condition.t) :
  _Condition.__str__ c = ""
  <-> _Condition._column_name c = None \/ _Condition._value c = PyNone.
Proof.
  split; [| apply Condition_str_unset].
  unfold _Condition.__str__.
  destruct (_Condition._column_name c) as [column |]; [| by left].
  destruct (_Condition._value c) eqn:Hv; try (by right);
    intros H; by apply append_not_empty_r in H.
Qed.

(** X11, [_Delete._get_query_str] with [_Condition.__str__]: the value of a
    condition is written into the statement as [str()] gives it, with
    no quoting and no placeholder, after the column and the text
    [('=',)]; the parameters hold the values of the value map only. *)
Theorem Delete_inlines_where_value (table column_name : string) (v : PyVal)
  (value_map : option (list (string * PyVal))) :
  v <> PyNone ->
  build (new _Delete (Some table) value_map
           (Some (Condition (_Condition.__init__ (Some column_name) v))))
  = Returns (Built ("DELETE FROM " +:+ table +:+ " WHERE " +:+ column_name
                    +:+ " ('=',) " +:+ py_str v)
               (option_map (List.map snd) value_map)).
Proof.
  intros Hv. apply Delete_where_renders. simpl.
  by rewrite Condition_str_set.
Qed.

Lemma Delete_inlines_where_value_or :
  build (new _Delete (Some "t") None
           (Some (Condition
                    (_Condition.__init__ (Some "id") (PyStr "1 OR 1=1")))))
  = Returns (Built "DELETE FROM t WHERE id ('=',) 1 OR 1=1" None).
Proof.
  by apply (Delete_inlines_where_value "t" "id" (PyStr "1 OR 1=1") None).
Defined.

(** ** More on [from_sqlite] *)

(** X12, [_Model.__init__] with [_Model.from_sqlite]: a model made
    from a row alone has the keys of the columns of the row, renamed by
    the mapping, and no other key. *)
Theorem Model_of_row_keys
  (populate : gmap string PyVal -> taglib.File
              -> gmap string PyVal * PyResult unit)
  (row : list (string * PyVal))
  (sqlite_field_mapping : option (gmap string string)) (k : string) :
  is_Some (fst (Model_init populate None (Some row) sqlite_field_mapping) !! k)
  <-> k ∈ key_of sqlite_field_mapping <$> Row_keys row.
Proof. apply new_Model_keys. Qed.

(** What ends up under the key of a column does not depend on what the
    model held before. *)
Lemma from_sqlite_loop_fresh (row : list (string * PyVal))
  (sqlite_field_mapping : option (gmap string string)) (keys : list string)
  (self self' : gmap string PyVal) (k : string) :
  keys ⊆ Row_keys row ->
  k ∈ key_of sqlite_field_mapping <$> keys ->
  fst (from_sqlite_loop self keys row sqlite_field_mapping) !! k
  = fst (from_sqlite_loop self' keys row sqlite_field_mapping) !! k.
Proof.
  revert self self'.
  induction keys as [| k0 rest IH]; intros self self' Hsub Hk.
  - by apply elem_of_nil in Hk.
  - assert (Hrest : rest ⊆ Row_keys row).
    { intros x Hx. apply Hsub. by right. }
    simpl.
    destruct (Row_getitem_key row k0) as [v0 ->]; [apply Hsub; by left |].
    destruct (decide (k ∈ key_of sqlite_field_mapping <$> rest))
      as [Hlater | Hlast]; [by apply IH |].
    rewrite !(from_sqlite_loop_other _ _ rest _ _ Hlast).
    rewrite fmap_cons in Hk. apply elem_of_cons in Hk as [-> | Hk]; [| done].
    by rewrite !lookup_insert_eq.
Qed.

(** X13, [_Model.from_sqlite]: reading the same row twice gives the model
    that reading it once gives. *)
Theorem from_sqlite_idempotent (self : gmap string PyVal)
  (row : list (string * PyVal))
  (sqlite_field_mapping : option (gmap string string)) :
  fst (from_sqlite (fst (from_sqlite self row sqlite_field_mapping)) row
         sqlite_field_mapping)
  = fst (from_sqlite self row sqlite_field_mapping).
Proof.
  unfold from_sqlite. apply map_eq. intros k.
  destruct (decide (k ∈ key_of sqlite_field_mapping <$> Row_keys row))
    as [Hin | Hout].
  - by apply from_sqlite_loop_fresh.
  - by rewrite !(from_sqlite_loop_other _ _ _ _ _ Hout).
Qed.

Lemma from_sqlite_loop_last (row : list (string * PyVal))
  (sqlite_field_mapping : option (gmap string string))
  (before after : list string) (self : gmap string PyVal)
  (sql_key : string) (v : PyVal) :
  before ++ sql_key :: after ⊆ Row_keys row ->
  Row_getitem row sql_key = Returns v ->
  key_of sqlite_field_mapping sql_key
    ∉ key_of sqlite_field_mapping <$> after ->
  fst (from_sqlite_loop self (before ++ sql_key :: after) row
         sqlite_field_mapping)
  !! key_of sqlite_field_mapping sql_key = Some v.
Proof.
  intros Hsub Hget Hlast. revert self Hsub.
  induction before as [| k0 before IH]; intros self Hsub; simpl.
  - rewrite Hget, (from_sqlite_loop_other _ _ after _ _ Hlast).
    by rewrite lookup_insert_eq.
  - destruct (Row_getitem_key row k0) as [v0 ->]; [apply Hsub; by left |].
    apply IH. intros x Hx. apply Hsub. by right.
Qed.

(** X14, [_Model.from_sqlite]: when several columns are stored under one key,
    the last of them in the row decides: the key holds what [row[...]]
    gives for the name of that column. *)
Theorem from_sqlite_last_wins (self : gmap string PyVal)
  (before after : list (string * PyVal)) (sql_key : string) (v0 v : PyVal)
  (sqlite_field_mapping : option (gmap string string)) :
  Row_getitem (before ++ (sql_key, v0) :: after) sql_key = Returns v ->
  key_of sqlite_field_mapping sql_key
    ∉ key_of sqlite_field_mapping <$> Row_keys after ->
  fst (from_sqlite self (before ++ (sql_key, v0) :: after)
         sqlite_field_mapping)
  !! key_of sqlite_field_mapping sql_key = Some v.
Proof.
  intros Hget Hlast. unfold from_sqlite, Row_keys.
  rewrite fmap_app, fmap_cons. simpl fst.
  apply from_sqlite_loop_last; [| done | done].
  unfold Row_keys. by rewrite fmap_app, fmap_cons.
Qed.

Lemma from_sqlite_last_wins_name :
  fst (from_sqlite ∅ [("name", PyStr "a"); ("title", PyStr "b")]
         (Some {[ "title" := "name" ]}))
  !! "name" = Some (PyStr "b").
Proof.
  refine (from_sqlite_last_wins ∅ [("name", PyStr "a")] [] "title"
            (PyStr "b") (PyStr "b") (Some {[ "title" := "name" ]}) eq_refl _).
  apply not_elem_of_nil.
Defined.

Lemma from_sqlite_loop_agree (row : list (string * PyVal))
  (mapping mapping' : option (gmap string string)) (keys : list string)
  (self : gmap string PyVal) :
  (forall k, k ∈ keys -> key_of mapping k = key_of mapping' k) ->
  from_sqlite_loop self keys row mapping
  = from_sqlite_loop self keys row mapping'.
Proof.
  revert self. induction keys as [| k0 rest IH]; intros self Hagree; [done |].
  simpl. destruct (Row_getitem row k0) as [v0 | e]; [| done].
  rewrite (Hagree k0) by (by left). apply IH.
  intros k Hk. apply Hagree. by right.
Qed.

(** X15, [_Model.from_sqlite]: of the field mapping only the entries for the
    columns of the row count; in particular an empty mapping does what no
    mapping does. *)
Theorem from_sqlite_mapping_on_columns (self : gmap string PyVal)
  (row : list (string * PyVal))
  (mapping mapping' : option (gmap string string)) :
  (forall k, k ∈ Row_keys row -> key_of mapping k = key_of mapping' k) ->
  from_sqlite self row mapping = from_sqlite self row mapping'
  /\ from_sqlite self row (Some ∅) = from_sqlite self row None.
Proof.
  intros Hagree. unfold from_sqlite. split.
  - by apply from_sqlite_loop_agree.
  - apply from_sqlite_loop_agree. intros k _. unfold key_of.
    by rewrite lookup_empty.
Qed.

Lemma from_sqlite_mapping_on_columns_track :
  from_sqlite ∅ [("id", PyInt 7); ("title", PyStr "So What")]
    (Some {[ "title" := "name" ]})
  = from_sqlite ∅ [("id", PyInt 7); ("title", PyStr "So What")]
      (Some {[ "title" := "name"; "year" := "released" ]}).
Proof.
  apply (from_sqlite_mapping_on_columns ∅
           [("id", PyInt 7); ("title", PyStr "So What")]
           (Some {[ "title" := "name" ]})
           (Some {[ "title" := "name"; "year" := "released" ]})).
  intros k [-> | [-> | []%elem_of_nil]%elem_of_cons]%elem_of_cons;
    reflexivity.
Defined.

(** X16, [_Model.from_sqlite] reads [row[sql_key]] by name: a later column
    whose name differs from the name of the first column by case only is
    given the value of the first column, not its own. *)
Theorem from_sqlite_same_name_other_case (self : gmap string PyVal)
  (first other : string) (v : PyVal) (rest : list (string * PyVal))
  (sqlite_field_mapping : option (gmap string string)) :
  equal_ignore_case first other = true ->
  other ∈ Row_keys rest ->
  NoDup (key_of sqlite_field_mapping <$> Row_keys ((first, v) :: rest)) ->
  fst (from_sqlite self ((first, v) :: rest) sqlite_field_mapping)
  !! key_of sqlite_field_mapping other = Some v.
Proof.
  intros Hsame Hin Hnodup. unfold from_sqlite.
  apply from_sqlite_loop_own; [done | done | by right |].
  simpl. by rewrite Hsame.
Qed.

Lemma from_sqlite_same_name_other_case_id :
  fst (from_sqlite ∅ [("id", PyInt 7); ("ID", PyInt 8)] None) !! "ID"
  = Some (PyInt 7).
Proof.
  apply (from_sqlite_same_name_other_case ∅ "id" "ID" (PyInt 7)
           [("ID", PyInt 8)] None).
  - reflexivity.
  - by left.
  - compute_done.
Defined.

(** ** The models of the music library *)

(** [_set_if_tag_exists] writes under [field_name] or nowhere. *)
Lemma set_if_tag_exists_other (self : gmap string PyVal) (field_name : string)
  (source : subscriptable) (source_field : option string) (k : string) :
  k <> field_name ->
  fst (_set_if_tag_exists self field_name source source_field) !! k
  = self !! k.
Proof.
  intros Hk. unfold _set_if_tag_exists. cbv zeta.
  destruct (source _) as [[| | | | [|] |] |]; simpl;
    by rewrite ?lookup_insert_ne.
Qed.

(** Two tags copied one after the other, as the three [populate]s do. *)
Lemma two_tags_other (self : gmap string PyVal) (source : subscriptable)
  (field1 tag1 field2 tag2 k : string) :
  k <> field1 -> k <> field2 ->
  fst (and_then (_set_if_tag_exists self field1 source (Some tag1))
         (fun self => _set_if_tag_exists self field2 source (Some tag2)))
  !! k = self !! k.
Proof.
  intros H1 H2. unfold and_then.
  destruct (_set_if_tag_exists self field1 source (Some tag1))
    as [self1 [[] | e]] eqn:E1; simpl.
  - rewrite set_if_tag_exists_other by done.
    change self1 with (fst (self1, @Returns unit ())). rewrite <- E1.
    by apply set_if_tag_exists_other.
  - change self1 with (fst (self1, @Raises unit e)). rewrite <- E1.
    by apply set_if_tag_exists_other.
Qed.

(** X17, [Track.populate], [Artist.populate], [Album.populate]: a key other
    than the ones the method names keeps what it had, however the call
    ends. *)
Theorem populate_other_keys (self : gmap string PyVal)
  (taglib_song : taglib.File) (k : string) :
  (k ∉ ["filepath"; "duration"; "name"; "album_track_number"] ->
   fst (Track.populate self taglib_song) !! k = self !! k)
  /\ (k ∉ ["name"; "album_artist"] ->
      fst (Artist.populate self taglib_song) !! k = self !! k
      /\ fst (Album.populate self taglib_song) !! k = self !! k).
Proof.
  split.
  - intros Hk. unfold Track.populate. cbv zeta.
    rewrite two_tags_other by set_solver.
    rewrite !lookup_insert_ne by set_solver. done.
  - intros Hk. unfold Artist.populate, Album.populate.
    by rewrite !two_tags_other by set_solver.
Qed.

Lemma populate_other_keys_id :
  fst (Track.populate {[ "id" := PyInt 3 ]}
         {| taglib.path := PyStr "a.mp3"; taglib.length := PyInt 9;
            taglib.__getitem__ := dict_getitem ∅ |})
  !! "id" = Some (PyInt 3).
Proof.
  refine (proj1 (populate_other_keys {[ "id" := PyInt 3 ]}
                   {| taglib.path := PyStr "a.mp3"; taglib.length := PyInt 9;
                      taglib.__getitem__ := dict_getitem ∅ |} "id") _).
  compute_done.
Defined.

(** X18, [Track.populate]: the path and the length are stored first and stay
    stored however the call ends; when reading the title raises, or
    gives a list without elements, the call raises the same and the
    track number is never read, so that neither name nor track number is
    stored. *)
Theorem Track_populate_aborts (self : gmap string PyVal)
  (taglib_song : taglib.File) (e : PyExn) :
  let self' := fst (Track.populate self taglib_song) in
  (self' !! "filepath" = Some (taglib.path taglib_song)
   /\ self' !! "duration" = Some (taglib.length taglib_song))
  /\ (taglib.__getitem__ taglib_song "TITLE" = Raises e
      \/ taglib.__getitem__ taglib_song "TITLE" = Returns (PyList [])
         /\ e = IndexError ->
      snd (Track.populate self taglib_song) = Raises e
      /\ self' !! "name" = self !! "name"
      /\ self' !! "album_track_number" = self !! "album_track_number").
Proof.
  intros self'. subst self'. unfold Track.populate. cbv zeta. split.
  - rewrite !two_tags_other by done.
    rewrite lookup_insert_ne by done. by rewrite !lookup_insert_eq.
  - intros Htitle. unfold and_then, _set_if_tag_exists at 1 3 4 5. cbv zeta.
    destruct Htitle as [-> | [-> ->]]; simpl;
      by rewrite !lookup_insert_ne by done.
Qed.

Lemma Track_populate_aborts_no_title :
  snd (Track.populate ∅
         {| taglib.path := PyStr "a.mp3"; taglib.length := PyInt 9;
            taglib.__getitem__ :=
              dict_getitem {[ "TRACKNUMBER" := PyList [PyStr "4"] ]} |})
  = Raises KeyError.
Proof.
  refine (proj1 (proj2 (Track_populate_aborts ∅
                          {| taglib.path := PyStr "a.mp3";
                             taglib.length := PyInt 9;
                             taglib.__getitem__ :=
                               dict_getitem
                                 {[ "TRACKNUMBER" := PyList [PyStr "4"] ]} |}
                          KeyError) _)).
  left. reflexivity.
Defined.

(** X19, [Track.populate]: when both tags are lists with elements, the track
    holds the path, the length, the first title and the first track
    number, and the call returns. *)
Theorem Track_populate_first_of_each (self : gmap string PyVal)
  (taglib_song : taglib.File) (title number : PyVal)
  (titles numbers : list PyVal) :
  taglib.__getitem__ taglib_song "TITLE" = Returns (PyList (title :: titles)) ->
  taglib.__getitem__ taglib_song "TRACKNUMBER"
  = Returns (PyList (number :: numbers)) ->
  Track.populate self taglib_song
  = (<["album_track_number" := number]>
       (<["name" := title]>
          (<["duration" := taglib.length taglib_song]>
             (<["filepath" := taglib.path taglib_song]> self))),
     Returns ()).
Proof.
  intros Htitle Hnumber. unfold Track.populate, _set_if_tag_exists. cbv zeta.
  rewrite Htitle. simpl. by rewrite Hnumber.
Qed.

Lemma Track_populate_first_of_each_so_what :
  Track.populate ∅
    {| taglib.path := PyStr "a.mp3"; taglib.length := PyInt 9;
       taglib.__getitem__ :=
         dict_getitem {[ "TITLE" := PyList [PyStr "So What"];
                         "TRACKNUMBER" := PyList [PyStr "1"; PyStr "5"] ]} |}
  = (<["album_track_number" := PyStr "1"]>
       (<["name" := PyStr "So What"]>
          (<["duration" := PyInt 9]> (<["filepath" := PyStr "a.mp3"]> ∅))),
     Returns ()).
Proof.
  exact (Track_populate_first_of_each ∅
           {| taglib.path := PyStr "a.mp3"; taglib.length := PyInt 9;
              taglib.__getitem__ :=
                dict_getitem {[ "TITLE" := PyList [PyStr "So What"];
                                "TRACKNUMBER" :=
                                  PyList [PyStr "1"; PyStr "5"] ]} |}
           (PyStr "So What") (PyStr "1") [] [PyStr "5"] eq_refl eq_refl).
Defined.

(** X20, [_Model.__init__] with [from_sqlite], then [Track.set_artist],
    [Track.set_album_artist], [Track.set_album] and [Album.set_artist]:
    the id read from a row (its [id] column, kept under that name, the
    columns differing in name and key) is what the setters store under
    [artist_id], [album_artist_id] and [album_id]. *)
Theorem set_id_of_row (self : gmap string PyVal)
  (populate : gmap string PyVal -> taglib.File
              -> gmap string PyVal * PyResult unit)
  (row : list (string * PyVal)) (id : PyVal)
  (sqlite_field_mapping : option (gmap string string)) :
  ("id", id) ∈ row ->
  key_of sqlite_field_mapping "id" = "id" ->
  distinct_columns (Row_keys row) = true ->
  NoDup (key_of sqlite_field_mapping <$> Row_keys row) ->
  let model :=
    fst (Model_init populate None (Some row) sqlite_field_mapping) in
  Track.set_artist self model !! "artist_id" = Some id
  /\ Track.set_album_artist self model !! "album_artist_id" = Some id
  /\ Track.set_album self model !! "album_id" = Some id
  /\ Album.set_artist self model !! "artist_id" = Some id.
Proof.
  intros Hin Hkey Hdistinct Hnodup model.
  assert (Hid : model !! "id" = Some id).
  { subst model. unfold Model_init, and_then, from_sqlite. rewrite <- Hkey.
    apply from_sqlite_loop_own; [done | done | |].
    - apply list_elem_of_fmap. by exists ("id", id).
    - by apply Row_getitem_distinct. }
  unfold Track.set_artist, Track.set_album_artist, Track.set_album,
    Album.set_artist.
  rewrite Hid. by rewrite !lookup_insert_eq.
Qed.

Lemma set_id_of_row_artist :
  Track.set_artist ∅
    (fst (Model_init Artist.populate None
            (Some [("id", PyInt 7); ("name", PyStr "Miles Davis")]) None))
  !! "artist_id" = Some (PyInt 7).
Proof.
  refine (proj1 (set_id_of_row ∅ Artist.populate
                   [("id", PyInt 7); ("name", PyStr "Miles Davis")]
                   (PyInt 7) None _ eq_refl eq_refl _)).
  - by left.
  - compute_done.
Defined.

(** X21, [Track.set_artist], [Track.set_album_artist], [Track.set_album],
    [Album.set_artist]: a record without the key [id] changes nothing,
    and no setter touches a key other than its own. *)
Theorem setters_frame (self other : gmap string PyVal) (k : string) :
  (other !! "id" = None ->
   Track.set_artist self other = self
   /\ Track.set_album_artist self other = self
   /\ Track.set_album self other = self
   /\ Album.set_artist self other = self)
  /\ (k <> "artist_id" ->
      Track.set_artist self other !! k = self !! k
      /\ Album.set_artist self other !! k = self !! k)
  /\ (k <> "album_artist_id" ->
      Track.set_album_artist self other !! k = self !! k)
  /\ (k <> "album_id" -> Track.set_album self other !! k = self !! k).
Proof.
  unfold Track.set_artist, Track.set_album_artist, Track.set_album,
    Album.set_artist.
  split_and!.
  - by intros ->.
  - intros Hk. by destruct (other !! "id"); rewrite ?lookup_insert_ne.
  - intros Hk. by destruct (other !! "id"); rewrite ?lookup_insert_ne.
  - intros Hk. by destruct (other !! "id"); rewrite ?lookup_insert_ne.
Qed.

Lemma setters_frame_no_id :
  Track.set_album {[ "name" := PyStr "So What" ]}
    {[ "name" := PyStr "Kind of Blue" ]}
  = {[ "name" := PyStr "So What" ]}.
Proof.
  refine (proj1 (proj2 (proj2 (proj1 (setters_frame
            {[ "name" := PyStr "So What" ]}
            {[ "name" := PyStr "Kind of Blue" ]} "name") _)))).
  reflexivity.
Defined.

(** X22, [Artist.needs_split], [Artist.split]: when [needs_split] holds,
    [split] returns a new artist with the single key [name], holding what
    was under [album_artist], and removes [album_artist] from [self]
    leaving the other keys; after it [needs_split] no longer holds, and
    [split] again raises.  When [needs_split] does not hold, [split]
    raises [KeyError] and changes nothing. *)
Theorem Artist_split (self : gmap string PyVal) :
  (Artist.needs_split self = true ->
   exists v,
     self !! "album_artist" = Some v
     /\ Artist.split self
        = (delete "album_artist" self, Returns {[ "name" := v ]})
     /\ Artist.needs_split (fst (Artist.split self)) = false
     /\ snd (Artist.split (fst (Artist.split self))) = Raises KeyError
     /\ forall k, k <> "album_artist" ->
          fst (Artist.split self) !! k = self !! k)
  /\ (Artist.needs_split self = false ->
      Artist.split self = (self, Raises KeyError)).
Proof.
  unfold Artist.needs_split, Artist.split. split.
  - intros [v Hv]%bool_decide_eq_true. exists v. rewrite Hv. simpl.
    split_and!.
    + done.
    + done.
    + apply bool_decide_eq_false. rewrite lookup_delete_eq. by intros [? ?].
    + by rewrite lookup_delete_eq.
    + intros k Hk. by rewrite lookup_delete_ne.
  - intros Hno%bool_decide_eq_false.
    destruct (self !! "album_artist") as [v |]; [| done].
    destruct Hno. by exists v.
Qed.

Lemma Artist_split_various :
  Artist.split {[ "name" := PyStr "Gil Evans";
                  "album_artist" := PyStr "Miles Davis" ]}
  = (delete "album_artist"
       {[ "name" := PyStr "Gil Evans";
          "album_artist" := PyStr "Miles Davis" ]},
     Returns {[ "name" := PyStr "Miles Davis" ]}).
Proof.
  destruct (proj1 (Artist_split {[ "name" := PyStr "Gil Evans";
                                   "album_artist" := PyStr "Miles Davis" ]}))
    as (v & Hv & Hsplit & _).
  - vm_compute. reflexivity.
  - vm_compute in Hv. injection Hv as <-. exact Hsplit.
Defined.

(** X23, [_Model.__init__], [Artist.populate], [Artist.split]: an artist made
    from a song whose artist and album artist tags are lists with
    elements needs a split, and the split leaves the first artist under
    [name] and returns the first album artist under [name]; with [None]
    for album artist no split is needed. *)
Theorem Artist_of_song_split (taglib_song : taglib.File)
  (artist : PyVal) (artists : list PyVal) :
  taglib.__getitem__ taglib_song "ARTIST"
  = Returns (PyList (artist :: artists)) ->
  let self := fst (Model_init Artist.populate (Some taglib_song) None None) in
  (forall album_artist album_artists,
     taglib.__getitem__ taglib_song "ALBUMARTIST"
     = Returns (PyList (album_artist :: album_artists)) ->
     Artist.needs_split self = true
     /\ Artist.split self
        = ({[ "name" := artist ]}, Returns {[ "name" := album_artist ]}))
  /\ (taglib.__getitem__ taglib_song "ALBUMARTIST" = Returns PyNone ->
      self = {[ "name" := artist ]} /\ Artist.needs_split self = false).
Proof.
  intros Hartist self. subst self.
  unfold Model_init, Artist.populate, and_then, _set_if_tag_exists.
  cbv zeta. rewrite Hartist. simpl. split.
  - intros album_artist album_artists ->. simpl. split; [done |].
    unfold Artist.split. rewrite lookup_insert_eq, delete_insert_eq.
    rewrite delete_id; [done |]. by rewrite lookup_insert_ne.
  - intros ->. simpl. split; [done |].
    unfold Artist.needs_split. apply bool_decide_eq_false.
    rewrite lookup_insert_ne by done. rewrite lookup_empty. by intros [? ?].
Qed.

Lemma Artist_of_song_split_kind_of_blue :
  Artist.split
    (fst (Model_init Artist.populate
            (Some {| taglib.path := PyStr "a.mp3"; taglib.length := PyInt 9;
                     taglib.__getitem__ :=
                       dict_getitem
                         {[ "ARTIST" := PyList [PyStr "Bill Evans"];
                            "ALBUMARTIST" := PyList [PyStr "Miles Davis"] ]}
                  |}) None None))
  = ({[ "name" := PyStr "Bill Evans" ]},
     Returns {[ "name" := PyStr "Miles Davis" ]}).
Proof.
  exact (proj2 (proj1 (Artist_of_song_split
           {| taglib.path := PyStr "a.mp3"; taglib.length := PyInt 9;
              taglib.__getitem__ :=
                dict_getitem
                  {[ "ARTIST" := PyList [PyStr "Bill Evans"];
                     "ALBUMARTIST" := PyList [PyStr "Miles Davis"] ]} |}
           (PyStr "Bill Evans") [] eq_refl)
           (PyStr "Miles Davis") [] eq_refl)).
Defined.

(** ** The database handler *)

(** X24, [_DbHandler._exec_query_no_result],
    [_DbHandler._exec_query_single_result]: a builder without a table
    name gives [False], or [None], whatever the connection would answer;
    a statement that is built is executed as built, with its
    parameters; so a [_Delete] without where-map has the empty statement
    executed. *)
Theorem exec_query_reaches_connection
  (execute : string -> option (list PyVal) -> cursor_outcome)
  (query_obj : _Query) :
  (_table_name query_obj = None ->
   _exec_query_no_result execute query_obj = Returns false
   /\ _exec_query_single_result execute query_obj = Returns None)
  /\ (forall query args,
        build query_obj = Returns (Built query args) ->
        _exec_query_no_result execute query_obj
        = _exec_raw_query_no_result execute query args
        /\ _exec_query_single_result execute query_obj
           = _exec_raw_query_single_result execute query args)
  /\ (forall table,
        cls query_obj = _Delete -> _table_name query_obj = Some table ->
        _where_map query_obj = None ->
        _exec_query_no_result execute query_obj
        = _exec_raw_query_no_result execute ""
            (option_map (List.map snd) (_value_map query_obj))).
Proof.
  unfold _exec_query_no_result, _exec_query_single_result. split_and!.
  - intros Hnone. by rewrite (build_without_table _ Hnone).
  - by intros query args ->.
  - intros table Hcls Htable Hwhere.
    rewrite (build_with_table _ table Htable). unfold _get_query_str.
    by rewrite Hcls, Hwhere.
Qed.

Lemma exec_query_reaches_connection_delete :
  _exec_query_no_result (fun _ _ => Fetched [])
    (new _Delete (Some "tracks") None None)
  = Returns true.
Proof.
  exact (proj2 (proj2 (exec_query_reaches_connection (fun _ _ => Fetched [])
                         (new _Delete (Some "tracks") None None)))
           "tracks" eq_refl eq_refl eq_refl).
Defined.

(** X25, [_DbHandler._exec_query_all_results] never returns rows: without a
    table name it returns [None], and when the statement is built it
    raises [AttributeError], the method it names not being defined. *)
Theorem exec_query_all_results_no_rows (query_obj : _Query) :
  (forall rows, _exec_query_all_results query_obj <> Returns (Some rows))
  /\ (_table_name query_obj = None ->
      _exec_query_all_results query_obj = Returns None)
  /\ (forall query args,
        build query_obj = Returns (Built query args) ->
        _exec_query_all_results query_obj = Raises AttributeError).
Proof.
  unfold _exec_query_all_results. split_and!.
  - intros rows. by destruct (build query_obj) as [[] |].
  - intros Hnone. by rewrite (build_without_table _ Hnone).
  - by intros query args ->.
Qed.

Lemma exec_query_all_results_no_rows_select :
  _exec_query_all_results (new _Select (Some "tracks") None None)
  = Raises AttributeError.
Proof.
  exact (proj2 (proj2 (exec_query_all_results_no_rows
                         (new _Select (Some "tracks") None None)))
           "SELECT * FROM tracks" None eq_refl).
Defined.

(** X26, [_DbHandler._exec_raw_query_single_result],
    [_DbHandler._table_exists]: when the lookup finds no row, or fails
    with an [sqlite3.Error], [_table_exists] raises [TypeError] instead
    of returning [False]; when it finds a row, the answer is whether the
    first column of the first row equals [1], so [False] for a column of
    text. *)
Theorem table_exists_outcome
  (execute : string -> option (list PyVal) -> cursor_outcome)
  (table_name : string) :
  let query_str :=
    "SELECT * FROM sqlite_master WHERE type='table' AND name='"
    +:+ table_name +:+ "'" in
  (execute query_str None = Fetched [] \/ execute query_str None = sqlite3_Error
   -> _table_exists execute table_name = Raises TypeError)
  /\ (forall name v columns rows,
        execute query_str None = Fetched (((name, v) :: columns) :: rows) ->
        _table_exists execute table_name = Returns (eq_1 v)
        /\ forall text, v = PyStr text ->
             _table_exists execute table_name = Returns false).
Proof.
  intros query_str. subst query_str.
  unfold _table_exists, _exec_raw_query_single_result. split.
  - by intros [-> | ->].
  - intros name v columns rows ->. split; [done |]. by intros text ->.
Qed.

Lemma table_exists_outcome_missing :
  _table_exists (fun _ _ => Fetched []) "artists" = Raises TypeError.
Proof.
  apply (proj1 (table_exists_outcome (fun _ _ => Fetched []) "artists")).
  by left.
Defined.
